(** * The profile edit form of the blog platform

    A shallow embedding of [src/components/user/profile-edit-form.tsx]:
    the zod schema [profileFormSchema], the two asynchronous handlers
    [handleImageChange] and [onSubmit] of the [ProfileEditForm] component,
    its local state and the part of its markup that decides which controls
    are enabled.

    The handlers are written in a small monad of asynchronous programs
    ([Prog]): a program performs synchronous actions (state setters, toasts,
    callbacks of the parent), awaits calls to the outside (the upload
    request, the body of its response, the user controller) and may throw.
    [run] executes a program against a [World] that settles every awaited
    call and says which tasks of the event loop run meanwhile;
    [suspensions] lists the states in which the program waits.

    Outside the repository, and therefore parameters of the model: the URL
    check of the schema library, [Date.prototype.toISOString] and the [Date]
    constructor.  [toast], [console.error], [onUpdate] and [onClose] are
    recorded in the log and taken not to throw.  The form library is
    modelled by what the component relies on: the submit handler runs only
    on values the schema accepts. *)

From Stdlib Require Import String Ascii List ZArith Bool Lia DecimalString.
Import ListNotations.
Local Open Scope string_scope.

(* ------------------------------------------------------------------ *)
(** * JavaScript values used by the component *)

Module Js.

(** Thrown values: [new Error(message)] and the errors of the runtime. *)
Inductive Exn : Type :=
| Error (message : string)
| TypeError (message : string)
| RangeError (message : string).

(** A settled promise. *)
Inductive Settled (A : Type) : Type :=
| Fulfilled (value : A)
| Rejected (reason : Exn).
Arguments Fulfilled {A} value.
Arguments Rejected {A} reason.

(** [string | null | undefined]: [None] stands for null and undefined,
    which the component never tells apart.  A character of a string stands
    for one UTF-16 code unit, so [String.length] is the [length] of
    JavaScript. *)
Definition truthy (v : option string) : bool :=
  match v with
  | Some s => negb (s =? "")
  | None => false
  end.

(** [a || b] *)
Definition or_else (a b : option string) : option string :=
  if truthy a then a else b.

(** [a || null] *)
Definition or_null (a : option string) : option string := or_else a None.

(** [a || d] for a string [d] *)
Definition or_default (a : option string) (d : string) : string :=
  match or_else a (Some d) with
  | Some s => s
  | None => d
  end.

(** [s.startsWith(p)] *)
Definition startsWith (s p : string) : bool := String.prefix p s.

(** A [Date] object: its time value in milliseconds since the epoch, or
    the invalid date (time value NaN). *)
Inductive Date : Type :=
| InvalidDate
| TimeValue (ms : Z).

(** Does the string contain the character [c]? *)
Fixpoint includes (c : ascii) (s : string) : bool :=
  match s with
  | EmptyString => false
  | String d rest => Ascii.eqb c d || includes c rest
  end.

End Js.
Import Js.

(* ------------------------------------------------------------------ *)
(** * Data model *)

(** The [Profile] row (prisma/schema.prisma) as the client sees it. *)
Module Profile.
Record t : Type := {
  bio : option string;
  pfp : option string;
  birthdate : option string;
  website : option string
}.
End Profile.

(** The [User] entity of the user controller, with its nested profile.
    [id] is a string; an absent id is the empty string (both are falsy). *)
Module User.
Record t : Type := {
  id : string;
  username : string;
  firstName : option string;
  lastName : option string;
  location : option string;
  about : option string;
  profile : option Profile.t
}.
End User.

(** [ProfileFormValues = z.infer<typeof profileFormSchema>] *)
Module ProfileFormValues.
Record t : Type := {
  username : string;
  firstName : option string;
  lastName : option string;
  location : option string;
  about : option string;
  bio : option string;
  website : option string;
  birthdate : option Date
}.
End ProfileFormValues.

(** The [profile] record of the update payload. *)
Module ProfilePatch.
Record t : Type := {
  bio : option string;
  website : option string;
  birthdate : option string;
  pfp : option string
}.
End ProfilePatch.

(** [profileData : Partial<User>] as [onSubmit] builds it. *)
Module ProfileData.
Record t : Type := {
  username : string;
  firstName : string;
  lastName : string;
  location : string;
  about : string;
  profile : ProfilePatch.t
}.
End ProfileData.

(** A [File] of the file input. *)
Module File.
Record t : Type := {
  name : string;
  size : Z;
  type : string
}.
End File.

(** The argument of [toast]. *)
Module Toast.
Record t : Type := {
  title : string;
  description : string;
  variant : option string
}.
End Toast.

(** [fetch(input, init)] *)
Inductive FormDataValue : Type :=
| Blob (file : File.t)
| Text (value : string).

Module RequestInit.
Record t : Type := {
  method : string;
  body : list (string * FormDataValue);
  headers : list (string * string)
}.
End RequestInit.

Module Response.
Record t : Type := {
  ok : bool;
  status : Z
}.
End Response.

(** The parsed body of the upload response, as far as the handler reads it:
    [uploadResult.url] and [uploadResult.data?.url].  [JsonNull] is a body
    that parses to [null]; [data = Some None] is a [data] object without
    [url]. *)
Inductive UploadResult : Type :=
| JsonNull
| JsonObject (url : option string) (data : option (option string)).

(** A field error of the form: the path of the field and the message. *)
Definition Issue : Type := (string * string)%type.

(* ------------------------------------------------------------------ *)
(** * Component state *)

(** The four [useState] cells of the component and the state of the form
    library (the entered values and the field errors it shows). *)
Record State : Type := {
  isSubmitting : bool;
  uploadingImage : bool;
  profileImage : option File.t;
  profileImagePreview : option string;
  formValues : ProfileFormValues.t;
  formErrors : list Issue
}.

(* ------------------------------------------------------------------ *)
(** * Asynchronous programs *)

(** Synchronous effects of a handler. *)
Inductive Action : Type :=
| SetIsSubmitting (b : bool)
| SetUploadingImage (b : bool)
| SetProfileImage (f : option File.t)
| SetProfileImagePreview (v : option string)
| SetFormErrors (issues : list Issue)
| ShowToast (t : Toast.t)
| ConsoleError (label : string) (error : Exn)
| ReadAsDataURL (file : File.t)
| OnUpdate (user : User.t)
| OnClose.

(** Promises a handler awaits, indexed by the type of their value. *)
Inductive Call : Type -> Type :=
| Fetch (input : string) (init : RequestInit.t) : Call Response.t
| ResponseJson (response : Response.t) : Call UploadResult
| UpdateProfile (id : string) (data : ProfileData.t) : Call (option User.t).

Inductive Prog (A : Type) : Type :=
| Ret (a : A)
| Throw (e : Exn)
| Do (a : Action) (k : Prog A)
| Await {R : Type} (c : Call R) (k : Settled R -> Prog A).
Arguments Ret {A} a.
Arguments Throw {A} e.
Arguments Do {A} a k.
Arguments Await {A R} c k.

Fixpoint bind {A B : Type} (p : Prog A) (f : A -> Prog B) : Prog B :=
  match p with
  | Ret a => f a
  | Throw e => Throw e
  | Do a k => Do a (bind k f)
  | Await c k => Await c (fun r => bind (k r) f)
  end.

Notation "x <- p ;; q" := (bind p (fun x => q))
  (at level 61, p at next level, right associativity).
Notation "p ;; q" := (bind p (fun _ => q))
  (at level 61, right associativity).

Definition act (a : Action) : Prog unit := Do a (Ret tt).

(** [await c]: the value of the promise, or its rejection thrown. *)
Definition await {R : Type} (c : Call R) : Prog R :=
  Await c (fun r => match r with
                    | Fulfilled v => Ret v
                    | Rejected e => Throw e
                    end).

(** [try { p } catch (error) { h error }] *)
Fixpoint tryCatch {A : Type} (p : Prog A) (h : Exn -> Prog A) : Prog A :=
  match p with
  | Ret a => Ret a
  | Throw e => h e
  | Do a k => Do a (tryCatch k h)
  | Await c k => Await c (fun r => tryCatch (k r) h)
  end.

(** [try { p } finally { f }] *)
Fixpoint tryFinally {A : Type} (p : Prog A) (f : Prog unit) : Prog A :=
  match p with
  | Ret a => f ;; Ret a
  | Throw e => f ;; Throw e
  | Do a k => Do a (tryFinally k f)
  | Await c k => Await c (fun r => tryFinally (k r) f)
  end.

Notation "'try' p 'catch' h 'finally' f" := (tryFinally (tryCatch p h) f)
  (at level 62, p at level 61, h at level 0, f at level 0).

(** ** Execution *)

(** What a program did: its actions and the calls it made, in order. *)
Inductive Event : Type :=
| Did (a : Action)
| Called {R : Type} (c : Call R).

(** Tasks of the event loop that may run while a handler is suspended at an
    [await]: the [onloadend] callback of the [FileReader] started by
    [handleImageChange], which stores [reader.result] as the preview. *)
Inductive Task : Type :=
| ReaderLoadEnd (result : option string).

(** The outside of the component: how each awaited call settles, and which
    tasks run while the handler waits for it. *)
Record World : Type := {
  settle : forall R : Type, Call R -> Settled R;
  meanwhile : forall R : Type, Call R -> list Task
}.

Definition exec (a : Action) (st : State) : State :=
  match a with
  | SetIsSubmitting b =>
      {| isSubmitting := b;
         uploadingImage := uploadingImage st;
         profileImage := profileImage st;
         profileImagePreview := profileImagePreview st;
         formValues := formValues st;
         formErrors := formErrors st |}
  | SetUploadingImage b =>
      {| isSubmitting := isSubmitting st;
         uploadingImage := b;
         profileImage := profileImage st;
         profileImagePreview := profileImagePreview st;
         formValues := formValues st;
         formErrors := formErrors st |}
  | SetProfileImage f =>
      {| isSubmitting := isSubmitting st;
         uploadingImage := uploadingImage st;
         profileImage := f;
         profileImagePreview := profileImagePreview st;
         formValues := formValues st;
         formErrors := formErrors st |}
  | SetProfileImagePreview v =>
      {| isSubmitting := isSubmitting st;
         uploadingImage := uploadingImage st;
         profileImage := profileImage st;
         profileImagePreview := v;
         formValues := formValues st;
         formErrors := formErrors st |}
  | SetFormErrors issues =>
      {| isSubmitting := isSubmitting st;
         uploadingImage := uploadingImage st;
         profileImage := profileImage st;
         profileImagePreview := profileImagePreview st;
         formValues := formValues st;
         formErrors := issues |}
  | ShowToast _ | ConsoleError _ _ | ReadAsDataURL _ | OnUpdate _ | OnClose => st
  end.

Definition runTask (t : Task) (st : State) : State :=
  match t with
  | ReaderLoadEnd result => exec (SetProfileImagePreview result) st
  end.

Definition runTasks (ts : list Task) (st : State) : State :=
  fold_left (fun s t => runTask t s) ts st.

Record Outcome (A : Type) : Type := {
  result : Settled A;
  final : State;
  log : list Event
}.
Arguments result {A} o.
Arguments final {A} o.
Arguments log {A} o.

Definition note {A : Type} (ev : Event) (o : Outcome A) : Outcome A :=
  {| result := result o; final := final o; log := ev :: log o |}.

(** Run a handler to completion. *)
Fixpoint run {A : Type} (w : World) (p : Prog A) (st : State) : Outcome A :=
  match p with
  | Ret a => {| result := Fulfilled a; final := st; log := [] |}
  | Throw e => {| result := Rejected e; final := st; log := [] |}
  | Do a k => note (Did a) (run w k (exec a st))
  | Await c k =>
      note (Called c)
           (run w (k (settle w _ c)) (runTasks (meanwhile w _ c) st))
  end.

(** The states [st] goes through while the tasks [ts] run one by one. *)
Fixpoint taskStates (ts : list Task) (st : State) : list State :=
  st :: match ts with
        | [] => []
        | t :: rest => taskStates rest (runTask t st)
        end.

(** The states in which a handler is suspended while it runs in world [w]:
    at each [await], the state when the call is made and the states the
    tasks leave until the call settles.  These are the states in which the
    viewer can act on the dialog while the handler is under way. *)
Fixpoint suspensions {A : Type} (w : World) (p : Prog A) (st : State)
  : list State :=
  match p with
  | Ret _ | Throw _ => []
  | Do a k => suspensions w k (exec a st)
  | Await c k =>
      taskStates (meanwhile w _ c) st
      ++ suspensions w (k (settle w _ c)) (runTasks (meanwhile w _ c) st)
  end.

(** ** Reading a log *)

Definition toastOf (ev : Event) : option Toast.t :=
  match ev with
  | Did (ShowToast t) => Some t
  | _ => None
  end.

Definition fetchOf (ev : Event) : option (string * RequestInit.t) :=
  match ev with
  | Called (Fetch input init) => Some (input, init)
  | _ => None
  end.

Definition updateOf (ev : Event) : option (string * ProfileData.t) :=
  match ev with
  | Called (UpdateProfile id data) => Some (id, data)
  | _ => None
  end.

Definition onUpdateOf (ev : Event) : option User.t :=
  match ev with
  | Did (OnUpdate u) => Some u
  | _ => None
  end.

Definition onCloseOf (ev : Event) : option unit :=
  match ev with
  | Did OnClose => Some tt
  | _ => None
  end.

Fixpoint collect {B : Type} (f : Event -> option B) (l : list Event) : list B :=
  match l with
  | [] => []
  | ev :: rest =>
      match f ev with
      | Some b => b :: collect f rest
      | None => collect f rest
      end
  end.

(** The toasts shown, the upload requests sent, the controller calls made
    and the calls of the parent's callbacks, in order. *)
Definition toasts (l : list Event) : list Toast.t := collect toastOf l.
Definition fetches (l : list Event) : list (string * RequestInit.t) := collect fetchOf l.
Definition updates (l : list Event) : list (string * ProfileData.t) := collect updateOf l.
Definition onUpdates (l : list Event) : list User.t := collect onUpdateOf l.
Definition onCloses (l : list Event) : list unit := collect onCloseOf l.

(* ------------------------------------------------------------------ *)
(** * The component *)

Section ProfileEditForm.

(** The runtime functions the component calls and the repository does not
    define: the URL check behind zod's [.url()] (does [new URL(s)]
    succeed?), [Date.prototype.toISOString] on a valid time value, and the
    [Date] constructor applied to a stored birthdate string. *)
Variable isUrl : string -> bool.
Variable isoString : Z -> string.
Variable newDate : string -> Date.

(** ** Form validation schema *)

(** [z.string().min(3, ...).max(30, ...)] *)
Definition usernameIssues (s : string) : list Issue :=
  (if (String.length s <? 3)%nat
   then [("username", "Username must be at least 3 characters.")]
   else [])
  ++
  (if (30 <? String.length s)%nat
   then [("username", "Username must not be longer than 30 characters.")]
   else []).

(** [z.string().max(160, ...).optional()] *)
Definition bioIssues (v : option string) : list Issue :=
  match v with
  | None => []
  | Some s =>
      if (160 <? String.length s)%nat
      then [("bio", "Bio must not be longer than 160 characters.")]
      else []
  end.

(** The two options of the union
    [z.string().url(...).optional().or(z.literal(""))]. *)
Definition urlOption (v : option string) : bool :=
  match v with
  | None => true
  | Some s => isUrl s
  end.

Definition emptyLiteral (v : option string) : bool :=
  match v with
  | None => false
  | Some s => s =? ""
  end.

Definition websiteIssues (v : option string) : list Issue :=
  if urlOption v || emptyLiteral v
  then []
  else [("website", "Please enter a valid URL.")].

(** [z.date().optional()] *)
Definition birthdateIssues (v : option Date) : list Issue :=
  match v with
  | Some InvalidDate => [("birthdate", "Invalid date")]
  | _ => []
  end.

(** The issues [profileFormSchema] reports for typed form values, in the
    order of its keys; [firstName], [lastName], [location] and [about] are
    [z.string().optional()] and report none. *)
Definition profileFormSchema (values : ProfileFormValues.t) : list Issue :=
  usernameIssues (ProfileFormValues.username values)
  ++ bioIssues (ProfileFormValues.bio values)
  ++ websiteIssues (ProfileFormValues.website values)
  ++ birthdateIssues (ProfileFormValues.birthdate values).

(** [form.handleSubmit(onValid)] with the zod resolver: the handler runs
    only when the schema reports no issue; otherwise the issues become the
    field errors of the form. *)
Definition handleSubmit (onValid : ProfileFormValues.t -> Prog unit)
           (values : ProfileFormValues.t) : Prog unit :=
  match profileFormSchema values with
  | [] => act (SetFormErrors []) ;; onValid values
  | issues => act (SetFormErrors issues)
  end.

(** ** Toasts *)

Definition destructive (description : string) : Toast.t :=
  {| Toast.title := "Error";
     Toast.description := description;
     Toast.variant := Some "destructive" |}.

Definition success (description : string) : Toast.t :=
  {| Toast.title := "Success";
     Toast.description := description;
     Toast.variant := None |}.

Definition missingUserToast : Toast.t :=
  destructive "User data is missing. Please try again.".
Definition tooLargeToast : Toast.t :=
  destructive "Image size must be less than 5MB".
Definition notImageToast : Toast.t :=
  destructive "Only image files are allowed".
Definition uploadFailedToast : Toast.t :=
  destructive "Failed to upload profile image. Please try again.".
Definition uploadedToast : Toast.t :=
  success "Profile image uploaded successfully".
Definition updateFailedToast : Toast.t :=
  destructive "Failed to update profile. Please try again.".
Definition updatedToast : Toast.t :=
  success "Profile updated successfully".

(** ** Props and initial state *)

(** [user.profile?.pfp] *)
Definition pfpOf (u : User.t) : option string :=
  match User.profile u with
  | Some p => Profile.pfp p
  | None => None
  end.

(** [user.profile?.pfp || null]: the persisted profile image. *)
Definition persistedImage (u : User.t) : option string := or_null (pfpOf u).

Definition profileField (f : Profile.t -> option string) (u : User.t)
  : option string :=
  match User.profile u with
  | Some p => f p
  | None => None
  end.

(** [defaultValues] of [useForm]. *)
Definition defaultValues (user : option User.t) : ProfileFormValues.t :=
  match user with
  | Some u =>
      {| ProfileFormValues.username := User.username u;
         ProfileFormValues.firstName := Some (or_default (User.firstName u) "");
         ProfileFormValues.lastName := Some (or_default (User.lastName u) "");
         ProfileFormValues.location := Some (or_default (User.location u) "");
         ProfileFormValues.about := Some (or_default (User.about u) "");
         ProfileFormValues.bio :=
           Some (or_default (profileField Profile.bio u) "");
         ProfileFormValues.website :=
           Some (or_default (profileField Profile.website u) "");
         ProfileFormValues.birthdate :=
           match profileField Profile.birthdate u with
           | Some s => if s =? "" then None else Some (newDate s)
           | None => None
           end |}
  | None =>
      {| ProfileFormValues.username := "";
         ProfileFormValues.firstName := Some "";
         ProfileFormValues.lastName := Some "";
         ProfileFormValues.location := Some "";
         ProfileFormValues.about := Some "";
         ProfileFormValues.bio := Some "";
         ProfileFormValues.website := Some "";
         ProfileFormValues.birthdate := None |}
  end.

(** The state of the first render. *)
Definition mount (user : option User.t) : State :=
  {| isSubmitting := false;
     uploadingImage := false;
     profileImage := None;
     profileImagePreview :=
       match user with
       | Some u => persistedImage u
       | None => None
       end;
     formValues := defaultValues user;
     formErrors := [] |}.

(** ** Handle profile image change *)

Definition uploadInit (u : User.t) (file : File.t) : RequestInit.t :=
  {| RequestInit.method := "POST";
     RequestInit.body := [("file", Blob file); ("type", Text "profile")];
     RequestInit.headers :=
       [("x-user-id", User.id u); ("x-user-username", User.username u)] |}.

(** [uploadResult.url || uploadResult.data?.url] *)
Definition imageUrlOf (uploadResult : UploadResult) : Prog (option string) :=
  match uploadResult with
  | JsonNull => Throw (TypeError "Cannot read properties of null (reading 'url')")
  | JsonObject url data =>
      Ret (or_else url (match data with
                        | Some d => d
                        | None => None
                        end))
  end.

(** [files] is [e.target.files]: [None] when the list is absent. *)
Definition handleImageChange (user : option User.t)
           (files : option (list File.t)) : Prog unit :=
  match files with
  | None | Some [] => Ret tt
  | Some (file :: _) =>
    match user with
    | None => act (ShowToast missingUserToast)
    | Some u =>
      if User.id u =? "" then act (ShowToast missingUserToast) else
      (* Validate file size (max 5MB) *)
      if (File.size file >? 5 * 1024 * 1024)%Z
      then act (ShowToast tooLargeToast) else
      (* Validate file type *)
      if negb (startsWith (File.type file) "image/")
      then act (ShowToast notImageToast) else
      act (SetProfileImage (Some file)) ;;
      (* Create preview *)
      act (ReadAsDataURL file) ;;
      (* Upload image immediately *)
      (try
         (act (SetUploadingImage true) ;;
          uploadResponse <- await (Fetch "/api/upload" (uploadInit u file)) ;;
          if negb (Response.ok uploadResponse)
          then Throw (Error "Failed to upload profile image") else
          uploadResult <- await (ResponseJson uploadResponse) ;;
          imageUrl <- imageUrlOf uploadResult ;;
          if negb (truthy imageUrl)
          then Throw (Error "No image URL returned from server") else
          (* Update preview with the actual URL from server *)
          act (SetProfileImagePreview imageUrl) ;;
          act (ShowToast uploadedToast))
       catch
         (fun error =>
            act (ConsoleError "Error uploading profile image:" error) ;;
            act (ShowToast uploadFailedToast) ;;
            (* Revert to previous image if upload fails *)
            act (SetProfileImagePreview (persistedImage u)) ;;
            act (SetProfileImage None))
       finally
         (act (SetUploadingImage false)))
    end
  end.

(** ** Handle form submission *)

(** [d.toISOString()] *)
Definition toISOString (d : Date) : Prog string :=
  match d with
  | TimeValue ms => Ret (isoString ms)
  | InvalidDate => Throw (RangeError "Invalid time value")
  end.

(** [profileImagePreview] is the preview state of the render that created
    the callback (it is one of its dependencies). *)
Definition onSubmit (user : option User.t)
           (profileImagePreview : option string)
           (data : ProfileFormValues.t) : Prog unit :=
  match user with
  | None => act (ShowToast missingUserToast)
  | Some u =>
    if User.id u =? "" then act (ShowToast missingUserToast) else
    act (SetIsSubmitting true) ;;
    (try
       ((* Prepare profile data *)
        birthdate <- match ProfileFormValues.birthdate data with
                     | Some d => s <- toISOString d ;; Ret (Some s)
                     | None => Ret None
                     end ;;
        let profileData :=
          {| ProfileData.username := ProfileFormValues.username data;
             ProfileData.firstName :=
               or_default (ProfileFormValues.firstName data) "";
             ProfileData.lastName :=
               or_default (ProfileFormValues.lastName data) "";
             ProfileData.location :=
               or_default (ProfileFormValues.location data) "";
             ProfileData.about :=
               or_default (ProfileFormValues.about data) "";
             ProfileData.profile :=
               {| ProfilePatch.bio := or_null (ProfileFormValues.bio data);
                  ProfilePatch.website :=
                    or_null (ProfileFormValues.website data);
                  ProfilePatch.birthdate := birthdate;
                  ProfilePatch.pfp := profileImagePreview |} |} in
        (* Update user profile using the controller *)
        updatedUser <- await (UpdateProfile (User.id u) profileData) ;;
        match updatedUser with
        | None => Throw (Error "Failed to update profile")
        | Some updated =>
            act (ShowToast updatedToast) ;;
            act (OnUpdate updated)
        end)
     catch
       (fun error =>
          act (ConsoleError "Error updating profile:" error) ;;
          act (ShowToast updateFailedToast))
     finally
       (act (SetIsSubmitting false)))
  end.

(** [form.handleSubmit(onSubmit)], the submit handler of the form
    element, in the render of state [st]. *)
Definition formOnSubmit (user : option User.t) (st : State) : Prog unit :=
  handleSubmit (onSubmit user (profileImagePreview st)) (formValues st).

(** The guard [!user || !user.id] of both handlers. *)
Definition missingUser (user : option User.t) : bool :=
  match user with
  | None => true
  | Some u => User.id u =? ""
  end.

(** ** Rendering: which controls respond *)

(** [disabled={isSubmitting || uploadingImage}] of the submit button. *)
Definition submitDisabled (st : State) : bool :=
  isSubmitting st || uploadingImage st.

(** [disabled={uploadingImage}] of the file input. *)
Definition fileInputDisabled (st : State) : bool := uploadingImage st.

(** [profileImagePreview && profileImagePreview !== user.profile?.pfp]:
    is the Remove button rendered? *)
Definition removeShown (u : User.t) (st : State) : bool :=
  match profileImagePreview st with
  | Some p =>
      negb (p =? "") &&
      match pfpOf u with
      | Some q => negb (p =? q)
      | None => true
      end
  | None => false
  end.

(** What the viewer can do to the dialog. *)
Inductive UiEvent : Type :=
| ClickSave
| ChooseFiles (files : option (list File.t))
| ClickRemove
| ClickCancel.

(** The handler a UI event starts in state [st], if the control is
    rendered and enabled.  Without a [user] the component renders
    nothing. *)
Definition dispatch (user : option User.t) (st : State) (ev : UiEvent)
  : option (Prog unit) :=
  match user with
  | None => None
  | Some u =>
    match ev with
    | ClickSave =>
        if submitDisabled st then None
        else Some (formOnSubmit user st)
    | ChooseFiles files =>
        if fileInputDisabled st then None
        else Some (handleImageChange user files)
    | ClickRemove =>
        if removeShown u st && negb (uploadingImage st)
        then Some (act (SetProfileImage None) ;;
                   act (SetProfileImagePreview (persistedImage u)))
        else None
    | ClickCancel => Some (act OnClose)
    end
  end.

(** ** Notions the properties below are stated with *)

(** The payload a submission of [data] sends while the preview is
    [preview]: the top-level fields, and the nested profile record with
    empty strings turned into null and the birthdate as a timestamp
    string. *)
Definition expectedPayload (preview : option string)
           (data : ProfileFormValues.t) : ProfileData.t :=
  {| ProfileData.username := ProfileFormValues.username data;
     ProfileData.firstName := or_default (ProfileFormValues.firstName data) "";
     ProfileData.lastName := or_default (ProfileFormValues.lastName data) "";
     ProfileData.location := or_default (ProfileFormValues.location data) "";
     ProfileData.about := or_default (ProfileFormValues.about data) "";
     ProfileData.profile :=
       {| ProfilePatch.bio := or_null (ProfileFormValues.bio data);
          ProfilePatch.website := or_null (ProfileFormValues.website data);
          ProfilePatch.birthdate :=
            match ProfileFormValues.birthdate data with
            | Some (TimeValue ms) => Some (isoString ms)
            | _ => None
            end;
          ProfilePatch.pfp := preview |} |}.

(** Does the parsed body carry a URL, at [url] or at [data.url]? *)
Definition carriesUrl (body : UploadResult) : bool :=
  match body with
  | JsonNull => false
  | JsonObject url data =>
      truthy url || match data with
                    | Some d => truthy d
                    | None => false
                    end
  end.

(** The ways the upload request [fetch(input, init)] fails in world [w]:
    the request is rejected, the status is not OK, the body cannot be
    read, or the body carries no URL. *)
Inductive uploadFails (w : World) (input : string) (init : RequestInit.t)
  : Prop :=
| NetworkError (e : Exn) :
    settle w _ (Fetch input init) = Rejected e ->
    uploadFails w input init
| NotOk (response : Response.t) :
    settle w _ (Fetch input init) = Fulfilled response ->
    Response.ok response = false ->
    uploadFails w input init
| UnreadableBody (response : Response.t) (e : Exn) :
    settle w _ (Fetch input init) = Fulfilled response ->
    Response.ok response = true ->
    settle w _ (ResponseJson response) = Rejected e ->
    uploadFails w input init
| NoUrl (response : Response.t) (body : UploadResult) :
    settle w _ (Fetch input init) = Fulfilled response ->
    Response.ok response = true ->
    settle w _ (ResponseJson response) = Fulfilled body ->
    carriesUrl body = false ->
    uploadFails w input init.

End ProfileEditForm.

(* ------------------------------------------------------------------ *)
(** * A sample runtime and sample inputs *)

Module Sample.

(** A stand-in for the URL check: the string starts with http and has a
    colon. *)
Definition isUrl (s : string) : bool :=
  includes ":"%char s && startsWith s "http".

(** The decimal digits of [n], zero-padded to [width] characters. *)
Definition padded (width : nat) (n : Z) : string :=
  let digits := NilZero.string_of_uint (N.to_uint (Z.to_N n)) in
  String.concat "" (repeat "0" (width - String.length digits)) ++ digits.

(** The civil date of a day number (days since 1970-01-01), in the
    proleptic Gregorian calendar. *)
Definition civil (day : Z) : Z * Z * Z :=
  let z := (day + 719468)%Z in
  let era := (z / 146097)%Z in
  let doe := (z - era * 146097)%Z in
  let yoe := ((doe - doe / 1460 + doe / 36524 - doe / 146096) / 365)%Z in
  let doy := (doe - (365 * yoe + yoe / 4 - yoe / 100))%Z in
  let mp := ((5 * doy + 2) / 153)%Z in
  let d := (doy - (153 * mp + 2) / 5 + 1)%Z in
  let m := (if mp <? 10 then mp + 3 else mp - 9)%Z in
  let y := (yoe + era * 400 + (if m <=? 2 then 1 else 0))%Z in
  (y, m, d).

(** The day number of a civil date. *)
Definition dayNumber (y m d : Z) : Z :=
  let y' := (if m <=? 2 then y - 1 else y)%Z in
  let era := (y' / 400)%Z in
  let yoe := (y' - era * 400)%Z in
  let doy := ((153 * (if m >? 2 then m - 3 else m + 9) + 2) / 5 + d - 1)%Z in
  let doe := (yoe * 365 + yoe / 4 - yoe / 100 + doy)%Z in
  (era * 146097 + doe - 719468)%Z.

(** [toISOString] on a time value: [YYYY-MM-DDTHH:mm:ss.sssZ], with a
    signed six-digit year outside 0..9999. *)
Definition isoString (ms : Z) : string :=
  let '(y, m, d) := civil (ms / 86400000) in
  let t := (ms mod 86400000)%Z in
  let year :=
    if (0 <=? y)%Z && (y <=? 9999)%Z then padded 4 y
    else (if (y <? 0)%Z then "-" else "+") ++ padded 6 (Z.abs y) in
  year ++ "-" ++ padded 2 m ++ "-" ++ padded 2 d
  ++ "T" ++ padded 2 (t / 3600000)
  ++ ":" ++ padded 2 (t / 60000 mod 60)
  ++ ":" ++ padded 2 (t / 1000 mod 60)
  ++ "." ++ padded 3 (t mod 1000) ++ "Z".

Fixpoint numberFrom (acc : Z) (s : string) : option Z :=
  match s with
  | EmptyString => Some acc
  | String c rest =>
      let n := (Z.of_nat (nat_of_ascii c) - 48)%Z in
      if (0 <=? n)%Z && (n <=? 9)%Z then numberFrom (10 * acc + n) rest else None
  end.

(** The digits of [s] from [start], [len] of them, as a number. *)
Definition field (s : string) (start len : nat) : option Z :=
  numberFrom 0 (substring start len s).

(** The [Date] constructor on the format [toISOString] writes with a
    four-digit year; any other string gives the invalid date. *)
Definition newDate (s : string) : Date :=
  match field s 0 4, field s 5 2, field s 8 2,
        field s 11 2, field s 14 2, field s 17 2, field s 20 3 with
  | Some y, Some m, Some d, Some h, Some mi, Some sec, Some milli =>
      if (String.length s =? 24)%nat
         && (substring 4 1 s =? "-") && (substring 7 1 s =? "-")
         && (substring 10 1 s =? "T") && (substring 13 1 s =? ":")
         && (substring 16 1 s =? ":") && (substring 19 1 s =? ".")
         && (substring 23 1 s =? "Z")
         && (1 <=? m)%Z && (m <=? 12)%Z && (1 <=? d)%Z && (d <=? 31)%Z
         && (h <? 24)%Z && (mi <? 60)%Z && (sec <? 60)%Z
      then TimeValue (dayNumber y m d * 86400000 + h * 3600000
                      + mi * 60000 + sec * 1000 + milli)
      else InvalidDate
  | _, _, _, _, _, _, _ => InvalidDate
  end.

Definition alice : User.t :=
  {| User.id := "u1";
     User.username := "alice";
     User.firstName := Some "Alice";
     User.lastName := None;
     User.location := None;
     User.about := None;
     User.profile :=
       Some {| Profile.bio := Some "old bio";
               Profile.pfp := Some "https://cdn/old.png";
               Profile.birthdate := Some "1990-05-17T00:00:00.000Z";
               Profile.website := None |} |}.

(** A user record without an id. *)
Definition anonymous : User.t :=
  {| User.id := "";
     User.username := "alice";
     User.firstName := None;
     User.lastName := None;
     User.location := None;
     User.about := None;
     User.profile := None |}.

(** The entity the controller returns. *)
Definition alice123 : User.t :=
  {| User.id := "u1";
     User.username := "alice123";
     User.firstName := Some "Alice";
     User.lastName := None;
     User.location := None;
     User.about := None;
     User.profile :=
       Some {| Profile.bio := Some "hi";
               Profile.pfp := Some "https://cdn/old.png";
               Profile.birthdate := Some "1990-05-17T00:00:00.000Z";
               Profile.website := None |} |}.

(** 17 May 1990, 00:00 UTC. *)
Definition birthday : Z := 642902400000.

Definition entered : ProfileFormValues.t :=
  {| ProfileFormValues.username := "alice123";
     ProfileFormValues.firstName := Some "Alice";
     ProfileFormValues.lastName := Some "";
     ProfileFormValues.location := Some "";
     ProfileFormValues.about := Some "";
     ProfileFormValues.bio := Some "hi";
     ProfileFormValues.website := Some "";
     ProfileFormValues.birthdate := Some (TimeValue birthday) |}.

(** The same form with a username of two characters. *)
Definition tooShort : ProfileFormValues.t :=
  {| ProfileFormValues.username := "al";
     ProfileFormValues.firstName := Some "Alice";
     ProfileFormValues.lastName := Some "";
     ProfileFormValues.location := Some "";
     ProfileFormValues.about := Some "";
     ProfileFormValues.bio := Some "hi";
     ProfileFormValues.website := Some "";
     ProfileFormValues.birthdate := Some (TimeValue birthday) |}.

Definition photo : File.t :=
  {| File.name := "me.png"; File.size := 1048576; File.type := "image/png" |}.

(** Six megabytes. *)
Definition hugePhoto : File.t :=
  {| File.name := "big.png"; File.size := 6291456; File.type := "image/png" |}.

Definition document : File.t :=
  {| File.name := "cv.pdf"; File.size := 2048; File.type := "application/pdf" |}.

Definition okResponse : Response.t :=
  {| Response.ok := true; Response.status := 200 |}.

Definition serverError : Response.t :=
  {| Response.ok := false; Response.status := 500 |}.

(** A world in which the upload request settles as [response], the body
    as [body] and the controller as [updated]; [tasks] run while the
    upload request is awaited. *)
Definition world (response : Settled Response.t)
           (body : Settled UploadResult)
           (updated : Settled (option User.t))
           (tasks : list Task) : World :=
  {| settle := fun R (c : Call R) =>
       match c in Call T return Settled T with
       | Fetch _ _ => response
       | ResponseJson _ => body
       | UpdateProfile _ _ => updated
       end;
     meanwhile := fun R (c : Call R) =>
       match c with
       | Fetch _ _ => tasks
       | _ => []
       end |}.

(** The upload succeeds with [url]; the local preview is ready first. *)
Definition uploads (url : string) : World :=
  world (Fulfilled okResponse)
        (Fulfilled (JsonObject (Some url) None))
        (Fulfilled (Some alice123))
        [ReaderLoadEnd (Some "data:image/png;base64,AAAA")].

(** The network is down. *)
Definition offline : World :=
  world (Rejected (TypeError "Failed to fetch"))
        (Rejected (TypeError "Failed to fetch"))
        (Rejected (TypeError "Failed to fetch"))
        [ReaderLoadEnd (Some "data:image/png;base64,AAAA")].

(** The state of the dialog opened for [alice] with [entered] typed in. *)
Definition editing : State :=
  {| isSubmitting := false;
     uploadingImage := false;
     profileImage := None;
     profileImagePreview := Some "https://cdn/old.png";
     formValues := entered;
     formErrors := [] |}.

(** The same dialog with [tooShort] typed in. *)
Definition typo : State :=
  {| isSubmitting := false;
     uploadingImage := false;
     profileImage := None;
     profileImagePreview := Some "https://cdn/old.png";
     formValues := tooShort;
     formErrors := [] |}.

(** The state after [alice] opened the dialog and uploaded [photo] with
    success: the preview is the URL the server returned. *)
Definition afterFirstUpload : State :=
  final (run (uploads "https://x/img.png")
             (handleImageChange (Some alice) (Some [photo]))
             (mount newDate (Some alice))).

(** The state in which the upload of [photo] waits for its response. *)
Definition uploading : State :=
  hd editing (suspensions offline
                          (handleImageChange (Some alice) (Some [photo]))
                          editing).

End Sample.

(* ------------------------------------------------------------------ *)
(** * The date picker and the event loop of the dialog *)

Section Dialog.

Variable isUrl : string -> bool.
Variable isoString : Z -> string.
Variable newDate : string -> Date.

(** ** The date picker *)

(** [a < b] on two [Date] objects compares their time values; with an
    invalid date on either side it is false. *)
Definition dateLt (a b : Date) : bool :=
  match a, b with
  | TimeValue x, TimeValue y => (x <? y)%Z
  | _, _ => false
  end.

(** The [disabled] prop of the calendar,
    [date > new Date() || date < new Date("1900-01-01")]; [now] is the time
    value of [new Date()]. *)
Definition birthdateDisabled (now : Z) (date : Date) : bool :=
  dateLt (TimeValue now) date || dateLt date (newDate "1900-01-01").

(** ** The event loop *)

(** A handler runs synchronously up to its first [await], and again from
    each settled call up to the next one.  [sync] is the state this part
    leaves, [remainder] what is left of the program, [readersStarted] the
    number of [FileReader]s it started. *)
Fixpoint sync (p : Prog unit) (st : State) : State :=
  match p with
  | Do a k => sync k (exec a st)
  | _ => st
  end.

Fixpoint remainder (p : Prog unit) : Prog unit :=
  match p with
  | Do _ k => remainder k
  | _ => p
  end.

Fixpoint readersStarted (p : Prog unit) : nat :=
  match p with
  | Do (ReadAsDataURL _) k => S (readersStarted k)
  | Do _ k => readersStarted k
  | _ => 0
  end.

Definition waiting (p : Prog unit) : bool :=
  match p with
  | Await _ _ => true
  | _ => false
  end.

(** The call a suspended submission waits for. *)
Definition pendingUpdate (p : Prog unit) : option (string * ProfileData.t) :=
  match p with
  | Await (UpdateProfile id data) _ => Some (id, data)
  | _ => None
  end.

(** The handlers the viewer starts, by the control that starts them. *)
Inductive Kind : Type :=
| Upload
| Submission
| Click.

Definition kindOf (ev : UiEvent) : Kind :=
  match ev with
  | ChooseFiles _ => Upload
  | ClickSave => Submission
  | ClickRemove | ClickCancel => Click
  end.

Definition sameKind (a b : Kind) : bool :=
  match a, b with
  | Upload, Upload | Submission, Submission | Click, Click => true
  | _, _ => false
  end.

(** The dialog between two tasks of the event loop: the component state,
    the handlers started so far with what is left of each, and the number
    of [FileReader]s that have not called back yet. *)
Record Machine : Type := {
  current : State;
  pending : list (Kind * Prog unit);
  reading : nat
}.

(** The viewer types into the form: the form library stores the values and
    the field errors it shows for them. *)
Definition withForm (values : ProfileFormValues.t) (errors : list Issue)
           (st : State) : State :=
  {| isSubmitting := isSubmitting st;
     uploadingImage := uploadingImage st;
     profileImage := profileImage st;
     profileImagePreview := profileImagePreview st;
     formValues := values;
     formErrors := errors |}.

(** What happens in one task. *)
Inductive Label : Type :=
| Acts (ev : UiEvent)
| Types (values : ProfileFormValues.t) (errors : list Issue)
| ReaderEnds (result : option string)
| Settles (position : nat) {R : Type} (r : Settled R).

Inductive step (user : option User.t) : Machine -> Label -> Machine -> Prop :=
| viewerActs (m : Machine) (ev : UiEvent) (p : Prog unit) :
    dispatch isUrl isoString user (current m) ev = Some p ->
    step user m (Acts ev)
         {| current := sync p (current m);
            pending := pending m ++ [(kindOf ev, remainder p)];
            reading := reading m + readersStarted p |}
| viewerTypes (m : Machine) (values : ProfileFormValues.t)
              (errors : list Issue) :
    step user m (Types values errors)
         {| current := withForm values errors (current m);
            pending := pending m;
            reading := reading m |}
| readerEnds (m : Machine) (n : nat) (result : option string) :
    reading m = S n ->
    step user m (ReaderEnds result)
         {| current := runTask (ReaderLoadEnd result) (current m);
            pending := pending m;
            reading := n |}
| callSettles (st : State) (before after : list (Kind * Prog unit))
              (kind : Kind) (R : Type) (c : Call R)
              (k : Settled R -> Prog unit) (r : Settled R) (n : nat) :
    step user
         {| current := st;
            pending := before ++ (kind, Await c k) :: after;
            reading := n |}
         (Settles (length before) r)
         {| current := sync (k r) st;
            pending := before ++ (kind, remainder (k r)) :: after;
            reading := n + readersStarted (k r) |}.

(** The tasks of a session of the dialog opened for [user], in order, and
    the machine they lead to. *)
Inductive session (user : option User.t) : list Label -> Machine -> Prop :=
| opened :
    session user [] {| current := mount newDate user; pending := []; reading := 0 |}
| continued (ls : list Label) (m : Machine) (l : Label) (m' : Machine) :
    session user ls m -> step user m l m' -> session user (ls ++ [l]) m'.

(** The number of handlers of a kind that wait for a call. *)
Definition counts (kind : Kind) (e : Kind * Prog unit) : nat :=
  if sameKind (fst e) kind && waiting (snd e) then 1 else 0.

Fixpoint inFlight (kind : Kind) (l : list (Kind * Prog unit)) : nat :=
  match l with
  | [] => 0
  | e :: rest => counts kind e + inFlight kind rest
  end.

(** A file that passes the size and the type check. *)
Definition acceptable (file : File.t) : Prop :=
  (File.size file <= 5 * 1024 * 1024)%Z
  /\ startsWith (File.type file) "image/" = true.

(** ** The guards of the image handler *)

(** The paths of [handleImageChange], by its guards. *)
Inductive ImagePath (user : option User.t) (files : option (list File.t))
  : Prop :=
| NoFiles :
    files = None \/ files = Some [] ->
    ImagePath user files
| NoUser (file : File.t) (rest : list File.t) :
    files = Some (file :: rest) ->
    missingUser user = true ->
    ImagePath user files
| TooLarge (u : User.t) (file : File.t) (rest : list File.t) :
    files = Some (file :: rest) -> user = Some u ->
    missingUser user = false ->
    (File.size file > 5 * 1024 * 1024)%Z ->
    ImagePath user files
| NotImage (u : User.t) (file : File.t) (rest : list File.t) :
    files = Some (file :: rest) -> user = Some u ->
    missingUser user = false ->
    (File.size file <= 5 * 1024 * 1024)%Z ->
    startsWith (File.type file) "image/" = false ->
    ImagePath user files
| Accepted (u : User.t) (file : File.t) (rest : list File.t) :
    files = Some (file :: rest) -> user = Some u ->
    missingUser user = false ->
    (File.size file >? 5 * 1024 * 1024)%Z = false ->
    startsWith (File.type file) "image/" = true ->
    ImagePath user files.

(** ** What is left of a handler *)

(** Actions that touch neither flag and set no pending image. *)
Definition neutral (a : Action) : Prop :=
  match a with
  | SetIsSubmitting _ | SetUploadingImage _ | SetProfileImage (Some _) => False
  | _ => True
  end.

(** Whatever the replies, [p] performs neutral actions only and ends, with
    no exception, right after the action [flag]. *)
Fixpoint Lowers (flag : Action) (p : Prog unit) : Prop :=
  match p with
  | Ret _ | Throw _ => False
  | Do a k => (a = flag /\ k = Ret tt) \/ (neutral a /\ Lowers flag k)
  | Await c k => forall r, Lowers flag (k r)
  end.

(** The action that ends a handler of each kind. *)
Definition lowering (kind : Kind) : option Action :=
  match kind with
  | Upload => Some (SetUploadingImage false)
  | Submission => Some (SetIsSubmitting false)
  | Click => None
  end.

(** An entry of the pending list is a handler that has ended, or one that
    waits and will lower the flag of its kind. *)
Definition wellFormed (e : Kind * Prog unit) : Prop :=
  snd e = Ret tt
  \/ (waiting (snd e) = true
      /\ exists flag, lowering (fst e) = Some flag /\ Lowers flag (snd e)).

Definition imageOk (st : State) : Prop :=
  match profileImage st with
  | Some file => acceptable file
  | None => True
  end.

Record Consistent (m : Machine) : Prop := {
  entriesOk : Forall wellFormed (pending m);
  uploadsOk :
    inFlight Upload (pending m) = if uploadingImage (current m) then 1 else 0;
  submissionsOk :
    inFlight Submission (pending m) = if isSubmitting (current m) then 1 else 0;
  pendingImageOk : imageOk (current m)
}.

End Dialog.

(* ------------------------------------------------------------------ *)
(** * More sample inputs *)

Module Scenario.

(** The [Date] constructor of the sample runtime, which also reads the
    date-only string of the date picker: 1 January 1900, 00:00 UTC. *)
Definition newDate (s : string) : Date :=
  if s =? "1900-01-01" then TimeValue (-2208988800000) else Sample.newDate s.


(** The form of [Sample.entered] with an invalid date. *)
Definition broken : ProfileFormValues.t :=
  {| ProfileFormValues.username := "alice123";
     ProfileFormValues.firstName := Some "Alice";
     ProfileFormValues.lastName := Some "";
     ProfileFormValues.location := Some "";
     ProfileFormValues.about := Some "";
     ProfileFormValues.bio := Some "hi";
     ProfileFormValues.website := Some "";
     ProfileFormValues.birthdate := Some InvalidDate |}.

(** A bio of 161 characters. *)
Definition longBio : string := String.concat "" (repeat "x" 161).

(** The state of [Sample.editing] with [longBio] typed in. *)
Definition verbose : State :=
  {| isSubmitting := false;
     uploadingImage := false;
     profileImage := None;
     profileImagePreview := Some "https://cdn/old.png";
     formValues :=
       {| ProfileFormValues.username := "alice123";
          ProfileFormValues.firstName := Some "Alice";
          ProfileFormValues.lastName := Some "";
          ProfileFormValues.location := Some "";
          ProfileFormValues.about := Some "";
          ProfileFormValues.bio := Some longBio;
          ProfileFormValues.website := Some "";
          ProfileFormValues.birthdate := None |};
     formErrors := [] |}.

(** The state in which the submission of [Sample.entered] waits for the
    controller. *)
Definition submitting : State :=
  hd Sample.editing
     (suspensions Sample.offline
                  (formOnSubmit Sample.isUrl Sample.isoString
                                (Some Sample.alice) Sample.editing)
                  Sample.editing).

(** The dialog of [Sample.alice] right after she chose [Sample.photo]. *)
Definition choosing : Machine :=
  {| current :=
       sync (handleImageChange (Some Sample.alice) (Some [Sample.photo]))
            (mount newDate (Some Sample.alice));
     pending :=
       [(Upload,
         remainder (handleImageChange (Some Sample.alice) (Some [Sample.photo])))];
     reading := 1 |}.

End Scenario.

(* ------------------------------------------------------------------ *)
(** * Properties *)

Section Properties.

Variable isUrl : string -> bool.
Variable isoString : Z -> string.

(** ** Logs *)

(** A handler that only shows a toast. *)
Lemma run_toast w t st :
  run w (act (ShowToast t)) st =
  {| result := Fulfilled tt; final := st; log := [Did (ShowToast t)] |}.
Proof. reflexivity. Qed.

(** ** The guards of the image handler *)

Lemma missingUser_some u :
  missingUser (Some u) = false -> (User.id u =? "") = false.
Proof. intros H. exact H. Qed.

Lemma handleImageChange_missingUser user file rest :
  missingUser user = true ->
  handleImageChange user (Some (file :: rest)) = act (ShowToast missingUserToast).
Proof.
  destruct user as [u|]; simpl; intros H.
  - now rewrite H.
  - reflexivity.
Qed.

Lemma onSubmit_missingUser user preview data :
  missingUser user = true ->
  onSubmit isoString user preview data = act (ShowToast missingUserToast).
Proof.
  destruct user as [u|]; simpl; intros H.
  - now rewrite H.
  - reflexivity.
Qed.

Lemma handleImageChange_tooLarge u file rest :
  missingUser (Some u) = false ->
  (File.size file > 5 * 1024 * 1024)%Z ->
  handleImageChange (Some u) (Some (file :: rest)) = act (ShowToast tooLargeToast).
Proof.
  intros Hu Hsize. unfold handleImageChange.
  rewrite (missingUser_some u Hu).
  replace (File.size file >? 5 * 1024 * 1024)%Z with true; [reflexivity|].
  symmetry. apply Z.gtb_lt. lia.
Qed.

Lemma handleImageChange_notImage u file rest :
  missingUser (Some u) = false ->
  (File.size file <= 5 * 1024 * 1024)%Z ->
  startsWith (File.type file) "image/" = false ->
  handleImageChange (Some u) (Some (file :: rest)) = act (ShowToast notImageToast).
Proof.
  intros Hu Hsize Htype. unfold handleImageChange.
  rewrite (missingUser_some u Hu).
  replace (File.size file >? 5 * 1024 * 1024)%Z with false.
  - now rewrite Htype.
  - symmetry. rewrite Z.gtb_ltb. apply Z.ltb_ge. lia.
Qed.

(** C10: a change event without files (the list is absent or empty) makes
    [handleImageChange] return at once, whoever the user is: nothing is
    logged (no toast, no request) and the state, with its preview and
    pending image, is as before. *)
Theorem handleImageChange_without_files_is_silent :
  forall (user : option User.t) (w : World) (st : State),
    run w (handleImageChange user None) st
    = {| result := Fulfilled tt; final := st; log := [] |}
    /\
    run w (handleImageChange user (Some [])) st
    = {| result := Fulfilled tt; final := st; log := [] |}.
Proof. intros user w st. split; reflexivity. Qed.


(** C4 (as amended): a file over 5 MB or of a type that is not an image
    never reaches the upload request.  The handler shows exactly one toast
    and stops with the state unchanged: the missing-user error when there is
    no user id, else the size error when the file is over 5 MB, else the
    type error. *)
Theorem rejected_file_is_never_uploaded :
  forall (user : option User.t) (file : File.t) (rest : list File.t)
         (w : World) (st : State),
    (File.size file > 5 * 1024 * 1024)%Z
    \/ startsWith (File.type file) "image/" = false ->
    let o := run w (handleImageChange user (Some (file :: rest))) st in
    fetches (log o) = []
    /\ final o = st
    /\ toasts (log o) =
       [ if missingUser user then missingUserToast
         else if (File.size file >? 5 * 1024 * 1024)%Z then tooLargeToast
         else notImageToast ].
Proof.
  intros user file rest w st Hbad o. subst o.
  destruct (missingUser user) eqn:Hu.
  - rewrite handleImageChange_missingUser by exact Hu. now rewrite run_toast.
  - destruct user as [u|]; [|discriminate].
    destruct (File.size file >? 5 * 1024 * 1024)%Z eqn:Hsize.
    + rewrite handleImageChange_tooLarge; [now rewrite run_toast|exact Hu|].
      apply Z.gtb_lt in Hsize. lia.
    + assert (File.size file <= 5 * 1024 * 1024)%Z as Hle.
      { rewrite Z.gtb_ltb in Hsize. apply Z.ltb_ge in Hsize. exact Hsize. }
      destruct Hbad as [Hgt|Htype]; [lia|].
      rewrite handleImageChange_notImage; [now rewrite run_toast|exact Hu|exact Hle|exact Htype].
Qed.

(** ** Submission *)

(** The tasks that run during an [await] only touch the preview. *)
Lemma runTasks_keeps ts st :
  isSubmitting (runTasks ts st) = isSubmitting st
  /\ uploadingImage (runTasks ts st) = uploadingImage st
  /\ profileImage (runTasks ts st) = profileImage st
  /\ formValues (runTasks ts st) = formValues st
  /\ formErrors (runTasks ts st) = formErrors st.
Proof.
  revert st. induction ts as [|t ts IH]; intros st.
  - repeat split.
  - destruct t as [r]. specialize (IH (runTask (ReaderLoadEnd r) st)).
    unfold runTasks in *. simpl. exact IH.
Qed.

Lemma runTasks_formValues ts st : formValues (runTasks ts st) = formValues st.
Proof. apply runTasks_keeps. Qed.

Lemma runTasks_uploadingImage ts st :
  uploadingImage (runTasks ts st) = uploadingImage st.
Proof. apply runTasks_keeps. Qed.

Lemma runTasks_profileImage ts st :
  profileImage (runTasks ts st) = profileImage st.
Proof. apply runTasks_keeps. Qed.

(** A form the schema accepts holds no invalid date. *)
Lemma valid_birthdate values :
  profileFormSchema isUrl values = [] ->
  ProfileFormValues.birthdate values <> Some InvalidDate.
Proof.
  unfold profileFormSchema. intros H Hd.
  repeat (apply app_eq_nil in H; destruct H as [_ H]).
  rewrite Hd in H. discriminate.
Qed.

Lemma run_formOnSubmit_valid w user st :
  profileFormSchema isUrl (formValues st) = [] ->
  run w (formOnSubmit isUrl isoString user st) st
  = note (Did (SetFormErrors []))
         (run w (onSubmit isoString user (profileImagePreview st) (formValues st))
              (exec (SetFormErrors []) st)).
Proof.
  intros Hvalid. unfold formOnSubmit, handleSubmit. now rewrite Hvalid.
Qed.

Lemma run_formOnSubmit_invalid w user st :
  profileFormSchema isUrl (formValues st) <> [] ->
  run w (formOnSubmit isUrl isoString user st) st
  = {| result := Fulfilled tt;
       final := exec (SetFormErrors (profileFormSchema isUrl (formValues st))) st;
       log := [Did (SetFormErrors (profileFormSchema isUrl (formValues st)))] |}.
Proof.
  intros Hinvalid. unfold formOnSubmit, handleSubmit.
  destruct (profileFormSchema isUrl (formValues st)); [contradiction|reflexivity].
Qed.

(** What a submission that passes validation does, by the way the
    controller call settles. *)
Lemma valid_submission w u st :
  missingUser (Some u) = false ->
  profileFormSchema isUrl (formValues st) = [] ->
  let payload := expectedPayload isoString (profileImagePreview st) (formValues st) in
  let o := run w (formOnSubmit isUrl isoString (Some u) st) st in
  updates (log o) = [(User.id u, payload)]
  /\ fetches (log o) = []
  /\ onCloses (log o) = []
  /\ formValues (final o) = formValues st
  /\ isSubmitting (final o) = false
  /\ match settle w _ (UpdateProfile (User.id u) payload) with
     | Fulfilled (Some updated) =>
         onUpdates (log o) = [updated] /\ toasts (log o) = [updatedToast]
     | _ =>
         onUpdates (log o) = [] /\ toasts (log o) = [updateFailedToast]
     end.
Proof.
  intros Hu Hvalid payload o. subst payload o.
  rewrite run_formOnSubmit_valid by exact Hvalid.
  pose proof (valid_birthdate _ Hvalid) as Hdate.
  unfold onSubmit, expectedPayload.
  rewrite (missingUser_some u Hu).
  destruct (ProfileFormValues.birthdate (formValues st)) as [[|ms]|];
    [contradiction| |];
    cbn;
    match goal with
    | |- context [settle w _ ?c] => destruct (settle w _ c) as [[updated|]|e]
    end;
    cbn; rewrite ?runTasks_formValues; repeat split; reflexivity.
Qed.

(** C3: a submission that passes validation sends the controller exactly
    one payload when a user id is present (and none otherwise), with the
    user id: the top-level fields (absent names as empty strings) and the
    profile record whose bio and website are the entered value, or null
    when empty, whose birthdate is the timestamp string or null, and whose
    picture is the preview state.  For username alice123, bio hi and an
    empty website the payload has that username, that bio and a null
    website. *)
Theorem valid_submission_payload :
  forall (user : option User.t) (w : World) (st : State),
    profileFormSchema isUrl (formValues st) = [] ->
    let entered := formValues st in
    let payload :=
      {| ProfileData.username := ProfileFormValues.username entered;
         ProfileData.firstName := or_default (ProfileFormValues.firstName entered) "";
         ProfileData.lastName := or_default (ProfileFormValues.lastName entered) "";
         ProfileData.location := or_default (ProfileFormValues.location entered) "";
         ProfileData.about := or_default (ProfileFormValues.about entered) "";
         ProfileData.profile :=
           {| ProfilePatch.bio :=
                match ProfileFormValues.bio entered with
                | Some s => if s =? "" then None else Some s
                | None => None
                end;
              ProfilePatch.website :=
                match ProfileFormValues.website entered with
                | Some s => if s =? "" then None else Some s
                | None => None
                end;
              ProfilePatch.birthdate :=
                match ProfileFormValues.birthdate entered with
                | Some (TimeValue ms) => Some (isoString ms)
                | _ => None
                end;
              ProfilePatch.pfp := profileImagePreview st |} |} in
    updates (log (run w (formOnSubmit isUrl isoString user st) st))
    = match user with
      | Some u => if User.id u =? "" then [] else [(User.id u, payload)]
      | None => []
      end
    /\ (ProfileFormValues.username entered = "alice123" ->
        ProfileFormValues.bio entered = Some "hi" ->
        ProfileFormValues.website entered = Some "" ->
        ProfileData.username payload = "alice123"
        /\ ProfilePatch.bio (ProfileData.profile payload) = Some "hi"
        /\ ProfilePatch.website (ProfileData.profile payload) = None).
Proof.
  intros user w st Hvalid entered payload.
  assert (payload = expectedPayload isoString (profileImagePreview st) entered)
    as Hpayload.
  { unfold payload, expectedPayload, or_null, or_else, truthy.
    destruct (ProfileFormValues.bio entered) as [b|];
      destruct (ProfileFormValues.website entered) as [s|];
      try destruct (b =? ""); try destruct (s =? ""); reflexivity. }
  split.
  - destruct (missingUser user) eqn:Hu.
    + rewrite run_formOnSubmit_valid, onSubmit_missingUser by assumption.
      destruct user as [u|]; [|reflexivity].
      simpl in Hu. now rewrite Hu.
    + destruct user as [u|]; [|discriminate].
      destruct (valid_submission w u st Hu Hvalid) as (Hsent & _).
      rewrite Hsent, (missingUser_some u Hu), Hpayload. reflexivity.
  - intros Hname Hbio Hsite. unfold payload. cbn.
    rewrite Hname, Hbio, Hsite. repeat split.
Qed.

(** C1 (as amended): when a submission passes validation and the
    controller returns an updated user, [onUpdate] is called exactly once,
    with that user, after the success toast; the handler itself never calls
    [onClose]. *)
Theorem successful_submission_notifies_parent_once :
  forall (u updated : User.t) (w : World) (st : State),
    missingUser (Some u) = false ->
    profileFormSchema isUrl (formValues st) = [] ->
    settle w _ (UpdateProfile (User.id u)
                  (expectedPayload isoString (profileImagePreview st) (formValues st)))
    = Fulfilled (Some updated) ->
    let o := run w (formOnSubmit isUrl isoString (Some u) st) st in
    onUpdates (log o) = [updated]
    /\ toasts (log o) = [updatedToast]
    /\ onCloses (log o) = []
    /\ isSubmitting (final o) = false.
Proof.
  intros u updated w st Hu Hvalid Hok o. subst o.
  destruct (valid_submission w u st Hu Hvalid) as (_ & _ & Hclose & _ & Hsub & Hres).
  rewrite Hok in Hres. destruct Hres as [Hupd Htoast].
  repeat split; assumption.
Qed.

(** C6: when the controller call of a submission throws or returns a falsy
    result, the generic error toast is the only toast, [onUpdate] and
    [onClose] are not called, the entered values are as before and the
    form is no longer submitting. *)
Theorem failed_submission_keeps_form_open :
  forall (u : User.t) (w : World) (st : State),
    missingUser (Some u) = false ->
    profileFormSchema isUrl (formValues st) = [] ->
    (settle w _ (UpdateProfile (User.id u)
                   (expectedPayload isoString (profileImagePreview st) (formValues st)))
     = Fulfilled None
     \/ exists e,
        settle w _ (UpdateProfile (User.id u)
                      (expectedPayload isoString (profileImagePreview st) (formValues st)))
        = Rejected e) ->
    let o := run w (formOnSubmit isUrl isoString (Some u) st) st in
    toasts (log o) = [updateFailedToast]
    /\ onUpdates (log o) = []
    /\ onCloses (log o) = []
    /\ formValues (final o) = formValues st
    /\ isSubmitting (final o) = false.
Proof.
  intros u w st Hu Hvalid Hfail o. subst o.
  destruct (valid_submission w u st Hu Hvalid) as (_ & _ & Hclose & Hvalues & Hsub & Hres).
  assert (onUpdates (log (run w (formOnSubmit isUrl isoString (Some u) st) st)) = []
          /\ toasts (log (run w (formOnSubmit isUrl isoString (Some u) st) st))
             = [updateFailedToast]) as [Hupd Htoast].
  { destruct Hfail as [Hnone|[e He]]; [rewrite Hnone in Hres|rewrite He in Hres];
      exact Hres. }
  repeat split; assumption.
Qed.

(** ** Image upload *)

Lemma truthy_or_else a b : truthy (or_else a b) = truthy a || truthy b.
Proof.
  unfold or_else. destruct (truthy a) eqn:Ha; [now rewrite Ha|reflexivity].
Qed.

Lemma carriesUrl_imageUrl url data :
  carriesUrl (JsonObject url data)
  = truthy (or_else url (match data with Some d => d | None => None end)).
Proof. rewrite truthy_or_else. destruct data; reflexivity. Qed.

Lemma gtb_false_le a b : (a >? b)%Z = false -> (a <= b)%Z.
Proof. rewrite Z.gtb_ltb. apply Z.ltb_ge. Qed.

Ltac failing_upload :=
  refine (conj _ (conj _ (conj _ (conj _ _))));
  [ reflexivity
  | reflexivity
  | now rewrite ?runTasks_formValues
  | intros _; repeat split
  | ].

(** A file that passes the three guards is uploaded once; how the handler
    ends depends on how the request settles. *)
Lemma accepted_file w u file rest st :
  missingUser (Some u) = false ->
  (File.size file >? 5 * 1024 * 1024)%Z = false ->
  startsWith (File.type file) "image/" = true ->
  let o := run w (handleImageChange (Some u) (Some (file :: rest))) st in
  fetches (log o) = [("/api/upload", uploadInit u file)]
  /\ uploadingImage (final o) = false
  /\ formValues (final o) = formValues st
  /\ (uploadFails w "/api/upload" (uploadInit u file) ->
      profileImagePreview (final o) = persistedImage u
      /\ profileImage (final o) = None
      /\ toasts (log o) = [uploadFailedToast])
  /\ (forall response url data,
         settle w _ (Fetch "/api/upload" (uploadInit u file)) = Fulfilled response ->
         Response.ok response = true ->
         settle w _ (ResponseJson response) = Fulfilled (JsonObject url data) ->
         carriesUrl (JsonObject url data) = true ->
         profileImagePreview (final o)
         = or_else url (match data with Some d => d | None => None end)
         /\ profileImage (final o) = Some file
         /\ toasts (log o) = [uploadedToast]).
Proof.
  intros Hu Hsize Htype o. subst o.
  unfold handleImageChange.
  rewrite (missingUser_some u Hu), Hsize, Htype.
  cbn.
  destruct (settle w _ (Fetch "/api/upload" (uploadInit u file)))
    as [response|e] eqn:Hfetch; cbn.
  2:{ (* the request is rejected *)
      failing_upload. intros r url data Hr. discriminate. }
  destruct (Response.ok response) eqn:Hok; cbn.
  2:{ (* the status is not OK *)
      failing_upload. intros r url data Hr Hok'.
      assert (r = response) by congruence; subst r. congruence. }
  destruct (settle w _ (ResponseJson response)) as [body|e] eqn:Hjson; cbn.
  2:{ (* the body cannot be read *)
      failing_upload. intros r url data Hr _ Hbody.
      assert (r = response) by congruence; subst r. congruence. }
  destruct body as [|url data]; cbn.
  { (* the body is null *)
    failing_upload. intros r url data Hr _ Hbody.
    assert (r = response) by congruence; subst r. congruence. }
  destruct (truthy (or_else url (match data with Some d => d | None => None end)))
    eqn:Hurl; cbn.
  { (* the server returned a URL *)
    refine (conj _ (conj _ (conj _ (conj _ _)))).
    - reflexivity.
    - reflexivity.
    - now rewrite ?runTasks_formValues.
    - intros Hfails. exfalso.
      destruct Hfails as [e He|r Hr Hnot|r e Hr _ He|r body Hr _ Hbody Hcarries].
      + congruence.
      + assert (r = response) by congruence; subst r. congruence.
      + assert (r = response) by congruence; subst r. congruence.
      + assert (r = response) by congruence; subst r.
        assert (body = JsonObject url data) by congruence; subst body.
        rewrite carriesUrl_imageUrl in Hcarries. congruence.
    - intros r url' data' Hr _ Hbody _.
      assert (r = response) by congruence; subst r.
      assert (url' = url /\ data' = data) as [-> ->] by (split; congruence).
      rewrite ?runTasks_profileImage. repeat split. }
  (* the body carries no URL *)
  failing_upload. intros r url' data' Hr _ Hbody Hcarries.
  assert (r = response) by congruence; subst r.
  assert (url' = url /\ data' = data) as [-> ->] by (split; congruence).
  pose proof (carriesUrl_imageUrl url data) as Hc. cbn in Hc. congruence.
Qed.

(** C2 (as amended): whenever the handler has sent an upload request and
    that request fails (it is rejected, its status is not OK, its body
    cannot be read or carries no URL), the handler ends with the preview
    set to the persisted profile image of the user, the pending image
    cleared, the uploading flag down and the upload error as its only
    toast.  The preview is then the value it had before the upload
    whenever that value was the persisted image. *)
Theorem failed_upload_reverts_to_persisted_image :
  forall (user : option User.t) (files : option (list File.t))
         (w : World) (st : State) (input : string) (init : RequestInit.t),
    let o := run w (handleImageChange user files) st in
    In (input, init) (fetches (log o)) ->
    uploadFails w input init ->
    exists u : User.t,
      user = Some u
      /\ profileImagePreview (final o) = persistedImage u
      /\ profileImage (final o) = None
      /\ uploadingImage (final o) = false
      /\ toasts (log o) = [uploadFailedToast]
      /\ (profileImagePreview st = persistedImage u ->
          profileImagePreview (final o) = profileImagePreview st).
Proof.
  intros user files w st input init o Hsent Hfails. subst o.
  destruct files as [[|file rest]|]; try contradiction.
  destruct (missingUser user) eqn:Hu.
  { rewrite handleImageChange_missingUser in Hsent by exact Hu. contradiction. }
  destruct user as [u|]; [|discriminate].
  destruct (File.size file >? 5 * 1024 * 1024)%Z eqn:Hsize.
  { rewrite handleImageChange_tooLarge in Hsent; [contradiction|exact Hu|].
    apply Z.gtb_lt in Hsize. lia. }
  destruct (startsWith (File.type file) "image/") eqn:Htype.
  2:{ rewrite handleImageChange_notImage in Hsent;
        [contradiction|exact Hu|now apply gtb_false_le|exact Htype]. }
  destruct (accepted_file w u file rest st Hu Hsize Htype)
    as (Hfetches & Hflag & _ & Hfailure & _).
  rewrite Hfetches in Hsent. destruct Hsent as [Heq|[]].
  inversion Heq; subst input init; clear Heq.
  destruct (Hfailure Hfails) as (Hpreview & Himage & Htoasts).
  exists u. repeat split; try assumption.
  intros Hbefore. now rewrite Hbefore.
Qed.

(** ** The submit control *)

Lemma taskStates_uploadingImage ts st s :
  In s (taskStates ts st) -> uploadingImage s = uploadingImage st.
Proof.
  revert st. induction ts as [|t ts IH]; intros st [Hs|Hs].
  - now subst s.
  - contradiction.
  - now subst s.
  - rewrite (IH _ Hs). now destruct t.
Qed.

(** While [handleImageChange] waits for the upload request or for the body
    of its response, the uploading flag is up. *)
Lemma upload_in_flight_is_pending user files w st s :
  In s (suspensions w (handleImageChange user files) st) ->
  uploadingImage s = true.
Proof.
  destruct files as [[|file rest]|]; try contradiction.
  destruct user as [u|]; try contradiction.
  unfold handleImageChange.
  destruct (User.id u =? ""); try contradiction.
  destruct (File.size file >? 5 * 1024 * 1024)%Z; try contradiction.
  destruct (startsWith (File.type file) "image/"); try contradiction.
  cbn [negb suspensions bind act tryCatch tryFinally await].
  intros Hs. apply in_app_or in Hs. destruct Hs as [Hs|Hs].
  { now rewrite (taskStates_uploadingImage _ _ _ Hs). }
  revert Hs.
  destruct (settle w _ (Fetch "/api/upload" (uploadInit u file)))
    as [response|e]; cbn [suspensions bind act tryCatch tryFinally await];
    try contradiction.
  destruct (Response.ok response);
    cbn [negb suspensions bind act tryCatch tryFinally await];
    try contradiction.
  intros Hs. apply in_app_or in Hs. destruct Hs as [Hs|Hs].
  { now rewrite (taskStates_uploadingImage _ _ _ Hs), runTasks_uploadingImage. }
  revert Hs.
  destruct (settle w _ (ResponseJson response)) as [[|url data]|e];
    cbn [negb suspensions bind act tryCatch tryFinally await imageUrlOf];
    try contradiction.
  destruct (truthy (or_else url (match data with Some d => d | None => None end)));
    cbn [negb suspensions bind act tryCatch tryFinally await];
    contradiction.
Qed.

(** C8: in a state whose uploading flag is up the submit button is
    disabled and a click on it starts no handler; the flag is up in every
    state in which the image handler waits for the upload, so no
    submission starts while an upload is in flight. *)
Theorem submit_disabled_while_uploading :
  (forall (user : option User.t) (st : State),
      uploadingImage st = true ->
      submitDisabled st = true
      /\ dispatch isUrl isoString user st ClickSave = None)
  /\
  (forall (user : option User.t) (files : option (list File.t))
          (w : World) (st s : State),
      In s (suspensions w (handleImageChange user files) st) ->
      uploadingImage s = true
      /\ dispatch isUrl isoString user s ClickSave = None).
Proof.
  assert (forall (user : option User.t) (st : State),
             uploadingImage st = true ->
             submitDisabled st = true
             /\ dispatch isUrl isoString user st ClickSave = None) as Hflag.
  { intros user st Hup. unfold dispatch, submitDisabled.
    rewrite Hup, orb_true_r. split; [reflexivity|now destruct user]. }
  split; [exact Hflag|].
  intros user files w st s Hs.
  pose proof (upload_in_flight_is_pending user files w st s Hs) as Hup.
  split; [exact Hup|apply Hflag, Hup].
Qed.

(** ** Field validation *)

Lemma usernameIssues_nil s :
  usernameIssues s = [] <-> (3 <= String.length s <= 30)%nat.
Proof.
  unfold usernameIssues.
  destruct (Nat.ltb_spec (String.length s) 3);
    destruct (Nat.ltb_spec 30 (String.length s)); simpl;
    split; intros; try discriminate; try lia; reflexivity.
Qed.

Lemma blocked_submission w user st :
  profileFormSchema isUrl (formValues st) <> [] ->
  let o := run w (formOnSubmit isUrl isoString user st) st in
  updates (log o) = []
  /\ onUpdates (log o) = []
  /\ toasts (log o) = []
  /\ formErrors (final o) = profileFormSchema isUrl (formValues st)
  /\ formValues (final o) = formValues st.
Proof.
  intros Hinvalid o. subst o.
  rewrite run_formOnSubmit_invalid by exact Hinvalid. repeat split.
Qed.

(** C5: the username check reports no issue exactly for lengths 3 to 30; a
    shorter username gets the minimum-length message and a longer one the
    maximum-length message.  A form whose username is reported is not
    submitted: the controller is not called and the message is among the
    field errors.  A username within the bounds adds no issue to the
    form. *)
Theorem username_accepted_iff_length_3_to_30 :
  forall s : string,
    (usernameIssues s = [] <-> (3 <= String.length s <= 30)%nat)
    /\ ((String.length s < 3)%nat ->
        usernameIssues s
        = [("username", "Username must be at least 3 characters.")])
    /\ ((30 < String.length s)%nat ->
        usernameIssues s
        = [("username", "Username must not be longer than 30 characters.")])
    /\ (forall user st w,
           ProfileFormValues.username (formValues st) = s ->
           ~ (3 <= String.length s <= 30)%nat ->
           let o := run w (formOnSubmit isUrl isoString user st) st in
           updates (log o) = []
           /\ onUpdates (log o) = []
           /\ incl (usernameIssues s) (formErrors (final o)))
    /\ (forall values,
           ProfileFormValues.username values = s ->
           (3 <= String.length s <= 30)%nat ->
           profileFormSchema isUrl values
           = (bioIssues (ProfileFormValues.bio values)
              ++ websiteIssues isUrl (ProfileFormValues.website values)
              ++ birthdateIssues (ProfileFormValues.birthdate values))%list).
Proof.
  intros s. split; [apply usernameIssues_nil|]. split; [|split; [|split]].
  - intros Hshort. unfold usernameIssues.
    destruct (Nat.ltb_spec (String.length s) 3); [|lia].
    destruct (Nat.ltb_spec 30 (String.length s)); [lia|reflexivity].
  - intros Hlong. unfold usernameIssues.
    destruct (Nat.ltb_spec (String.length s) 3); [lia|].
    destruct (Nat.ltb_spec 30 (String.length s)); [reflexivity|lia].
  - intros user st w Hname Hout o. subst o.
    assert (profileFormSchema isUrl (formValues st) <> []) as Hinvalid.
    { unfold profileFormSchema. rewrite Hname. intros Hnil.
      apply app_eq_nil in Hnil. destruct Hnil as [Hnil _].
      apply usernameIssues_nil in Hnil. contradiction. }
    destruct (blocked_submission w user st Hinvalid) as (Hupd & Hon & _ & Herr & _).
    repeat split; try assumption.
    rewrite Herr. unfold profileFormSchema. rewrite Hname.
    apply incl_appl, incl_refl.
  - intros values Hname Hin. unfold profileFormSchema. rewrite Hname.
    apply usernameIssues_nil in Hin. now rewrite Hin.
Qed.

Lemma websiteIssues_nil v :
  websiteIssues isUrl v = [] <->
  match v with
  | None => True
  | Some s => s = "" \/ isUrl s = true
  end.
Proof.
  unfold websiteIssues, urlOption, emptyLiteral. destruct v as [s|]; simpl.
  - destruct (isUrl s); simpl.
    + split; auto.
    + destruct (String.eqb_spec s ""); split; intros; auto; try discriminate.
      destruct H as [?|?]; [contradiction|discriminate].
  - split; auto.
Qed.

(** C9: the website check accepts the empty string, as it accepts an
    absent value, and otherwise accepts exactly the strings the URL check
    accepts.  A non-empty string the URL check refuses gets the URL message
    and the form is not submitted.  Since a string the URL check accepts
    contains a colon, not-a-url is refused. *)
Theorem website_accepted_iff_empty_or_url :
  (forall s, isUrl s = true -> includes ":"%char s = true) ->
  websiteIssues isUrl (Some "") = []
  /\ websiteIssues isUrl None = []
  /\ (forall s, websiteIssues isUrl (Some s) = [] <-> s = "" \/ isUrl s = true)
  /\ (forall s, s <> "" -> isUrl s = false ->
                websiteIssues isUrl (Some s)
                = [("website", "Please enter a valid URL.")])
  /\ websiteIssues isUrl (Some "not-a-url")
     = [("website", "Please enter a valid URL.")]
  /\ (forall user st w s,
         ProfileFormValues.website (formValues st) = Some s ->
         s <> "" -> isUrl s = false ->
         let o := run w (formOnSubmit isUrl isoString user st) st in
         updates (log o) = []
         /\ onUpdates (log o) = []
         /\ In ("website", "Please enter a valid URL.") (formErrors (final o))).
Proof.
  intros Hcolon.
  assert (forall s, s <> "" -> isUrl s = false ->
                    websiteIssues isUrl (Some s)
                    = [("website", "Please enter a valid URL.")]) as Hrefused.
  { intros s Hs Hno. unfold websiteIssues, urlOption, emptyLiteral.
    rewrite Hno. apply String.eqb_neq in Hs. now rewrite Hs. }
  split; [|split; [|split; [|split; [|split]]]].
  - apply (websiteIssues_nil (Some "")). now left.
  - reflexivity.
  - intros s. apply (websiteIssues_nil (Some s)).
  - exact Hrefused.
  - apply Hrefused; [discriminate|].
    destruct (isUrl "not-a-url") eqn:Hurl; [|reflexivity].
    apply Hcolon in Hurl. discriminate.
  - intros user st w s Hsite Hs Hno o. subst o.
    assert (In ("website", "Please enter a valid URL.")
               (profileFormSchema isUrl (formValues st))) as Hin.
    { unfold profileFormSchema. rewrite Hsite, (Hrefused s Hs Hno).
      apply in_or_app. right. apply in_or_app. right.
      apply in_or_app. left. now left. }
    assert (profileFormSchema isUrl (formValues st) <> []) as Hinvalid.
    { intros Hnil. rewrite Hnil in Hin. contradiction. }
    destruct (blocked_submission w user st Hinvalid) as (Hupd & Hon & _ & Herr & _).
    repeat split; try assumption. now rewrite Herr.
Qed.

End Properties.

(* ------------------------------------------------------------------ *)
(** * The properties at the sample inputs *)

(** The sample runtime writes and reads timestamps as JavaScript does. *)
Example isoString_epoch :
  Sample.isoString 0 = "1970-01-01T00:00:00.000Z"
  /\ Sample.isoString (-1) = "1969-12-31T23:59:59.999Z"
  /\ Sample.isoString 951782400000 = "2000-02-29T00:00:00.000Z"
  /\ Sample.isoString 8640000000000000 = "+275760-09-13T00:00:00.000Z"
  /\ Sample.isoString Sample.birthday = "1990-05-17T00:00:00.000Z".
Proof. vm_compute. repeat split. Qed.

Example newDate_isoString :
  Sample.newDate (Sample.isoString Sample.birthday) = TimeValue Sample.birthday
  /\ Sample.newDate "yesterday" = InvalidDate.
Proof. vm_compute. split; reflexivity. Qed.

(** The dialog opened for [alice] shows her stored profile. *)
Example mount_alice :
  profileImagePreview (mount Sample.newDate (Some Sample.alice))
  = Some "https://cdn/old.png"
  /\ ProfileFormValues.birthdate
       (formValues (mount Sample.newDate (Some Sample.alice)))
     = Some (TimeValue Sample.birthday)
  /\ profileFormSchema Sample.isUrl
       (formValues (mount Sample.newDate (Some Sample.alice))) = [].
Proof. vm_compute. repeat split. Qed.


(** C4, against the claim as stated: a six-megabyte file chosen without a
    user id is rejected with the missing-user error; the size error is not
    shown. *)
Lemma oversized_file_without_user_id :
  (File.size Sample.hugePhoto > 5 * 1024 * 1024)%Z
  /\ toasts (log (run Sample.offline
                      (handleImageChange (Some Sample.anonymous)
                                         (Some [Sample.hugePhoto]))
                      Sample.editing))
     = [missingUserToast]
  /\ ~ In tooLargeToast
        (toasts (log (run Sample.offline
                          (handleImageChange (Some Sample.anonymous)
                                             (Some [Sample.hugePhoto]))
                          Sample.editing))).
Proof.
  split; [reflexivity|]. split; [reflexivity|].
  intros [H|[]]. discriminate H.
Qed.

(** The six-megabyte file chosen by [alice] is rejected with the size error
    and no request. *)
Lemma rejected_file_at_hugePhoto :
  ((File.size Sample.hugePhoto > 5 * 1024 * 1024)%Z
   \/ startsWith (File.type Sample.hugePhoto) "image/" = false)
  /\ fetches (log (run Sample.offline
                       (handleImageChange (Some Sample.alice)
                                          (Some [Sample.hugePhoto]))
                       Sample.editing)) = []
  /\ toasts (log (run Sample.offline
                      (handleImageChange (Some Sample.alice)
                                         (Some [Sample.hugePhoto]))
                      Sample.editing)) = [tooLargeToast].
Proof.
  assert ((File.size Sample.hugePhoto > 5 * 1024 * 1024)%Z
          \/ startsWith (File.type Sample.hugePhoto) "image/" = false) as Hbad.
  { left. reflexivity. }
  destruct (rejected_file_is_never_uploaded
              (Some Sample.alice) Sample.hugePhoto [] Sample.offline
              Sample.editing Hbad) as (Hfetch & _ & Htoast).
  split; [exact Hbad|]. split; [exact Hfetch|exact Htoast].
Defined.

(** C2, against the claim as stated: after a first upload has succeeded the
    preview is the URL of that upload; a second upload that fails leaves the
    preview at the persisted image, which is not the value before the
    upload. *)
Lemma failed_upload_after_successful_upload :
  let before := Sample.afterFirstUpload in
  let o := run Sample.offline
               (handleImageChange (Some Sample.alice) (Some [Sample.photo]))
               before in
  profileImagePreview before = Some "https://x/img.png"
  /\ In ("/api/upload", uploadInit Sample.alice Sample.photo) (fetches (log o))
  /\ uploadFails Sample.offline "/api/upload" (uploadInit Sample.alice Sample.photo)
  /\ profileImagePreview (final o) = Some "https://cdn/old.png"
  /\ profileImagePreview (final o) <> profileImagePreview before.
Proof.
  cbv zeta. split; [reflexivity|]. split; [left; reflexivity|].
  split; [apply (NetworkError _ _ _ (TypeError "Failed to fetch")); reflexivity|].
  split; [reflexivity|]. discriminate.
Qed.

(** The upload of [photo] by [alice] with the network down. *)
Lemma failed_upload_at_offline :
  In ("/api/upload", uploadInit Sample.alice Sample.photo)
     (fetches (log (run Sample.offline
                        (handleImageChange (Some Sample.alice) (Some [Sample.photo]))
                        Sample.editing)))
  /\ uploadFails Sample.offline "/api/upload" (uploadInit Sample.alice Sample.photo)
  /\ exists u : User.t,
      Some Sample.alice = Some u
      /\ profileImagePreview
           (final (run Sample.offline
                       (handleImageChange (Some Sample.alice) (Some [Sample.photo]))
                       Sample.editing))
         = persistedImage u
      /\ profileImage
           (final (run Sample.offline
                       (handleImageChange (Some Sample.alice) (Some [Sample.photo]))
                       Sample.editing))
         = None.
Proof.
  assert (In ("/api/upload", uploadInit Sample.alice Sample.photo)
             (fetches (log (run Sample.offline
                                (handleImageChange (Some Sample.alice)
                                                   (Some [Sample.photo]))
                                Sample.editing)))) as Hsent.
  { left. reflexivity. }
  assert (uploadFails Sample.offline "/api/upload"
                      (uploadInit Sample.alice Sample.photo)) as Hfails.
  { apply (NetworkError _ _ _ (TypeError "Failed to fetch")). reflexivity. }
  split; [exact Hsent|]. split; [exact Hfails|].
  destruct (failed_upload_reverts_to_persisted_image
              (Some Sample.alice) (Some [Sample.photo]) Sample.offline
              Sample.editing _ _ Hsent Hfails)
    as (u & Hu & Hpreview & Himage & _).
  exists u. split; [exact Hu|]. split; [exact Hpreview|exact Himage].
Defined.

(** The submission of [entered] by [alice]: the payload of the end-to-end
    example. *)
Lemma valid_submission_payload_at_entered :
  profileFormSchema Sample.isUrl (formValues Sample.editing) = []
  /\ updates (log (run (Sample.uploads "https://x/img.png")
                       (formOnSubmit Sample.isUrl Sample.isoString
                                     (Some Sample.alice) Sample.editing)
                       Sample.editing))
     = [("u1",
         {| ProfileData.username := "alice123";
            ProfileData.firstName := "Alice";
            ProfileData.lastName := "";
            ProfileData.location := "";
            ProfileData.about := "";
            ProfileData.profile :=
              {| ProfilePatch.bio := Some "hi";
                 ProfilePatch.website := None;
                 ProfilePatch.birthdate := Some "1990-05-17T00:00:00.000Z";
                 ProfilePatch.pfp := Some "https://cdn/old.png" |} |})].
Proof.
  split; [reflexivity|].
  exact (proj1 (valid_submission_payload
                  Sample.isUrl Sample.isoString (Some Sample.alice)
                  (Sample.uploads "https://x/img.png") Sample.editing
                  eq_refl)).
Defined.

(** C1, against the claim as stated: the submission of [entered] succeeds
    and [onUpdate] is called with the returned user, but [onClose] is not
    called. *)
Lemma successful_submission_does_not_close :
  let w := Sample.uploads "https://x/img.png" in
  let o := run w (formOnSubmit Sample.isUrl Sample.isoString
                               (Some Sample.alice) Sample.editing)
               Sample.editing in
  profileFormSchema Sample.isUrl (formValues Sample.editing) = []
  /\ settle w _ (UpdateProfile "u1"
                   (expectedPayload Sample.isoString
                      (profileImagePreview Sample.editing)
                      (formValues Sample.editing)))
     = Fulfilled (Some Sample.alice123)
  /\ onUpdates (log o) = [Sample.alice123]
  /\ onCloses (log o) = []
  /\ ~ In (Did OnClose) (log o).
Proof.
  cbv zeta. repeat split.
  cbn. intros H.
  repeat (destruct H as [H|H]; [discriminate H|]). exact H.
Qed.

(** The successful submission of [entered] by [alice]. *)
Lemma successful_submission_at_entered :
  missingUser (Some Sample.alice) = false
  /\ profileFormSchema Sample.isUrl (formValues Sample.editing) = []
  /\ onUpdates (log (run (Sample.uploads "https://x/img.png")
                         (formOnSubmit Sample.isUrl Sample.isoString
                                       (Some Sample.alice) Sample.editing)
                         Sample.editing))
     = [Sample.alice123].
Proof.
  split; [reflexivity|]. split; [reflexivity|].
  apply (successful_submission_notifies_parent_once
           Sample.isUrl Sample.isoString Sample.alice Sample.alice123
           (Sample.uploads "https://x/img.png") Sample.editing);
    reflexivity.
Defined.

(** The submission of [entered] by [alice] with the network down. *)
Lemma failed_submission_at_offline :
  missingUser (Some Sample.alice) = false
  /\ profileFormSchema Sample.isUrl (formValues Sample.editing) = []
  /\ toasts (log (run Sample.offline
                      (formOnSubmit Sample.isUrl Sample.isoString
                                    (Some Sample.alice) Sample.editing)
                      Sample.editing))
     = [updateFailedToast]
  /\ formValues (final (run Sample.offline
                            (formOnSubmit Sample.isUrl Sample.isoString
                                          (Some Sample.alice) Sample.editing)
                            Sample.editing))
     = Sample.entered.
Proof.
  split; [reflexivity|]. split; [reflexivity|].
  destruct (failed_submission_keeps_form_open
              Sample.isUrl Sample.isoString Sample.alice Sample.offline
              Sample.editing eq_refl eq_refl)
    as (Htoast & _ & _ & Hvalues & _).
  { right. exists (TypeError "Failed to fetch"). reflexivity. }
  split; [exact Htoast|exact Hvalues].
Defined.

(** While the upload of [photo] is in flight the submit button is
    disabled. *)
Lemma submit_disabled_at_uploading :
  uploadingImage Sample.uploading = true
  /\ In Sample.uploading
        (suspensions Sample.offline
                     (handleImageChange (Some Sample.alice) (Some [Sample.photo]))
                     Sample.editing)
  /\ submitDisabled Sample.uploading = true
  /\ dispatch Sample.isUrl Sample.isoString (Some Sample.alice)
              Sample.uploading ClickSave = None.
Proof.
  split; [reflexivity|]. split; [left; reflexivity|].
  apply (proj1 (submit_disabled_while_uploading Sample.isUrl Sample.isoString)
               (Some Sample.alice) Sample.uploading).
  reflexivity.
Defined.

(** A username of two characters blocks the submission; one of eight
    characters is accepted. *)
Lemma username_at_tooShort :
  (String.length "al" < 3)%nat
  /\ usernameIssues "al"
     = [("username", "Username must be at least 3 characters.")]
  /\ updates (log (run Sample.offline
                       (formOnSubmit Sample.isUrl Sample.isoString
                                     (Some Sample.alice) Sample.typo)
                       Sample.typo))
     = []
  /\ (3 <= String.length "alice123" <= 30)%nat
  /\ usernameIssues "alice123" = [].
Proof.
  destruct (username_accepted_iff_length_3_to_30
              Sample.isUrl Sample.isoString "al")
    as (_ & Hshort & _ & Hblocked & _).
  destruct (username_accepted_iff_length_3_to_30
              Sample.isUrl Sample.isoString "alice123")
    as (Hiff & _).
  assert (String.length "al" < 3)%nat as Hlen by (simpl; lia).
  assert (~ (3 <= String.length "al" <= 30)%nat) as Hout by (simpl; lia).
  assert (3 <= String.length "alice123" <= 30)%nat as Hin by (simpl; lia).
  split; [exact Hlen|]. split; [exact (Hshort Hlen)|].
  split.
  - exact (proj1 (Hblocked (Some Sample.alice) Sample.typo Sample.offline
                           eq_refl Hout)).
  - split; [exact Hin|]. apply Hiff. exact Hin.
Defined.

(** The username check at the boundary lengths 2, 3, 30 and 31. *)
Example username_boundaries :
  usernameIssues "ab"
  = [("username", "Username must be at least 3 characters.")]
  /\ usernameIssues "abc" = []
  /\ usernameIssues "abcdefghijklmnopqrstuvwxyz0123" = []
  /\ usernameIssues "abcdefghijklmnopqrstuvwxyz01234"
     = [("username", "Username must not be longer than 30 characters.")].
Proof. repeat split. Qed.

Lemma sample_isUrl_has_colon :
  forall s, Sample.isUrl s = true -> includes ":"%char s = true.
Proof.
  intros s H. unfold Sample.isUrl in H.
  apply andb_prop in H. exact (proj1 H).
Defined.

(** With the sample URL check, the empty website passes and not-a-url is
    refused. *)
Lemma website_at_sample :
  (forall s, Sample.isUrl s = true -> includes ":"%char s = true)
  /\ websiteIssues Sample.isUrl (Some "") = []
  /\ websiteIssues Sample.isUrl (Some "not-a-url")
     = [("website", "Please enter a valid URL.")].
Proof.
  destruct (website_accepted_iff_empty_or_url
              Sample.isUrl Sample.isoString sample_isUrl_has_colon)
    as (Hempty & _ & _ & _ & Hnot & _).
  split; [exact sample_isUrl_has_colon|]. split; [exact Hempty|exact Hnot].
Defined.

(* ------------------------------------------------------------------ *)
(** * Further properties of the handlers *)

Section HandlerProperties.

Variable isUrl : string -> bool.
Variable isoString : Z -> string.
Variable newDate : string -> Date.

Lemma runTasks_isSubmitting ts st :
  isSubmitting (runTasks ts st) = isSubmitting st.
Proof. apply runTasks_keeps. Qed.

Lemma runTasks_formErrors ts st : formErrors (runTasks ts st) = formErrors st.
Proof. apply runTasks_keeps. Qed.

Lemma leb_gtb a b : (a <=? b)%Z = negb (a >? b)%Z.
Proof.
  rewrite Z.gtb_ltb. destruct (Z.leb_spec a b), (Z.ltb_spec b a);
    try reflexivity; lia.
Qed.

(** ** The image handler *)

Lemma image_paths user files : ImagePath user files.
Proof.
  destruct files as [[|file rest]|];
    [apply NoFiles; now right| |apply NoFiles; now left].
  destruct (missingUser user) eqn:Hu; [now apply (NoUser _ _ file rest)|].
  destruct user as [u|]; [|discriminate].
  destruct (File.size file >? 5 * 1024 * 1024)%Z eqn:Hsize.
  { apply (TooLarge _ _ u file rest); auto. apply Z.gtb_lt in Hsize. lia. }
  destruct (startsWith (File.type file) "image/") eqn:Htype.
  - now apply (Accepted _ _ u file rest).
  - apply (NotImage _ _ u file rest); auto. now apply gtb_false_le.
Qed.

(** What an accepted file leaves untouched, however the upload goes. *)
Lemma accepted_file_frame w u file rest st :
  missingUser (Some u) = false ->
  (File.size file >? 5 * 1024 * 1024)%Z = false ->
  startsWith (File.type file) "image/" = true ->
  let o := run w (handleImageChange (Some u) (Some (file :: rest))) st in
  result o = Fulfilled tt
  /\ isSubmitting (final o) = isSubmitting st
  /\ formErrors (final o) = formErrors st
  /\ length (toasts (log o)) = 1
  /\ updates (log o) = []
  /\ onUpdates (log o) = []
  /\ onCloses (log o) = [].
Proof.
  intros Hu Hsize Htype o. subst o.
  unfold handleImageChange.
  rewrite (missingUser_some u Hu), Hsize, Htype.
  cbn.
  destruct (settle w _ (Fetch "/api/upload" (uploadInit u file)))
    as [response|e]; cbn;
    [|rewrite ?runTasks_isSubmitting, ?runTasks_formErrors; repeat split].
  destruct (Response.ok response); cbn;
    [|rewrite ?runTasks_isSubmitting, ?runTasks_formErrors; repeat split].
  destruct (settle w _ (ResponseJson response)) as [[|url data]|e]; cbn;
    try (rewrite ?runTasks_isSubmitting, ?runTasks_formErrors; now repeat split).
  destruct (truthy (or_else url (match data with Some d => d | None => None end)));
    cbn; rewrite ?runTasks_isSubmitting, ?runTasks_formErrors; now repeat split.
Qed.

(** X1: when the upload request the handler sent is answered with an OK
    status and a body that carries a URL, the preview becomes that URL,
    [url] before [data.url], whatever the file reader did meanwhile; the
    chosen file is the pending image, the flag is down and the success
    toast is the only toast. *)
Theorem successful_upload_shows_server_url :
  forall (user : option User.t) (files : option (list File.t))
         (w : World) (st : State) (input : string) (init : RequestInit.t)
         (response : Response.t) (url : option string)
         (data : option (option string)),
    let o := run w (handleImageChange user files) st in
    In (input, init) (fetches (log o)) ->
    settle w _ (Fetch input init) = Fulfilled response ->
    Response.ok response = true ->
    settle w _ (ResponseJson response) = Fulfilled (JsonObject url data) ->
    carriesUrl (JsonObject url data) = true ->
    profileImagePreview (final o)
    = (if truthy url then url
       else match data with Some d => d | None => None end)
    /\ truthy (profileImagePreview (final o)) = true
    /\ (exists file rest,
           files = Some (file :: rest) /\ profileImage (final o) = Some file)
    /\ uploadingImage (final o) = false
    /\ toasts (log o) = [uploadedToast].
Proof.
  intros user files w st input init response url data o Hsent Hfetch Hok Hjson Hurl.
  subst o.
  destruct (image_paths user files)
    as [[Hf|Hf]|file rest Hf Hu|u file rest Hf Hus Hu Hsize
        |u file rest Hf Hus Hu Hsize Htype|u file rest Hf Hus Hu Hsize Htype];
    subst; try contradiction.
  - rewrite handleImageChange_missingUser in Hsent by exact Hu. contradiction.
  - rewrite handleImageChange_tooLarge in Hsent by assumption. contradiction.
  - rewrite handleImageChange_notImage in Hsent by assumption. contradiction.
  - destruct (accepted_file w u file rest st Hu Hsize Htype)
      as (Hfetches & Hflag & _ & _ & Hsuccess).
    rewrite Hfetches in Hsent. destruct Hsent as [Heq|[]].
    inversion Heq; subst input init; clear Heq.
    destruct (Hsuccess response url data Hfetch Hok Hjson Hurl)
      as (Hpreview & Himage & Htoasts).
    rewrite carriesUrl_imageUrl in Hurl.
    split; [rewrite Hpreview; reflexivity|].
    split; [now rewrite Hpreview|].
    split; [now exists file, rest|].
    split; assumption.
Qed.

(** X2: the handler sends the upload request exactly when a file is chosen,
    a user id is present, the file is at most 5 MB (5 * 1024 * 1024 bytes
    included) and its type starts with image/.  It then sends one request:
    a POST to /api/upload whose body holds the first chosen file and the type
    profile, with the id and the username of the user as headers. *)
Theorem upload_request_sent_iff_guards_pass :
  forall (user : option User.t) (files : option (list File.t))
         (w : World) (st : State),
    fetches (log (run w (handleImageChange user files) st))
    = match files, user with
      | Some (file :: _), Some u =>
          if negb (User.id u =? "")
             && (File.size file <=? 5 * 1024 * 1024)%Z
             && startsWith (File.type file) "image/"
          then [("/api/upload",
                 {| RequestInit.method := "POST";
                    RequestInit.body :=
                      [("file", Blob file); ("type", Text "profile")];
                    RequestInit.headers :=
                      [("x-user-id", User.id u);
                       ("x-user-username", User.username u)] |})]
          else []
      | _, _ => []
      end.
Proof.
  intros user files w st.
  destruct (image_paths user files)
    as [[Hf|Hf]|file rest Hf Hu|u file rest Hf Hus Hu Hsize
        |u file rest Hf Hus Hu Hsize Htype|u file rest Hf Hus Hu Hsize Htype];
    subst; try reflexivity.
  - rewrite handleImageChange_missingUser by exact Hu.
    destruct user as [u|]; [|reflexivity]. simpl in Hu. now rewrite Hu.
  - rewrite handleImageChange_tooLarge by assumption.
    rewrite leb_gtb.
    replace (File.size file >? 5 * 1024 * 1024)%Z with true
      by (symmetry; apply Z.gtb_lt; lia).
    rewrite andb_false_r. reflexivity.
  - rewrite handleImageChange_notImage by assumption.
    rewrite Htype, andb_false_r. reflexivity.
  - destruct (accepted_file w u file rest st Hu Hsize Htype) as (Hfetches & _).
    rewrite Hfetches, leb_gtb, Hsize, Htype, (missingUser_some u Hu).
    reflexivity.
Qed.

(** X3: the image handler never rejects and never calls the controller or
    the callbacks of the parent; it leaves the submitting flag, the entered
    values and the field errors alone, leaves the uploading flag down if it
    was down, and shows exactly one toast when a file was chosen and none
    otherwise. *)
Theorem image_handler_frame :
  forall (user : option User.t) (files : option (list File.t))
         (w : World) (st : State),
    let o := run w (handleImageChange user files) st in
    result o = Fulfilled tt
    /\ isSubmitting (final o) = isSubmitting st
    /\ formValues (final o) = formValues st
    /\ formErrors (final o) = formErrors st
    /\ (uploadingImage st = false -> uploadingImage (final o) = false)
    /\ updates (log o) = []
    /\ onUpdates (log o) = []
    /\ onCloses (log o) = []
    /\ length (toasts (log o))
       = match files with
         | Some (_ :: _) => 1
         | _ => 0
         end.
Proof.
  intros user files w st o. subst o.
  destruct (image_paths user files)
    as [[Hf|Hf]|file rest Hf Hu|u file rest Hf Hus Hu Hsize
        |u file rest Hf Hus Hu Hsize Htype|u file rest Hf Hus Hu Hsize Htype];
    subst.
  - repeat split; auto.
  - repeat split; auto.
  - rewrite handleImageChange_missingUser by exact Hu. repeat split; auto.
  - rewrite handleImageChange_tooLarge by assumption. repeat split; auto.
  - rewrite handleImageChange_notImage by assumption. repeat split; auto.
  - destruct (accepted_file w u file rest st Hu Hsize Htype)
      as (_ & Hflag & Hvalues & _).
    destruct (accepted_file_frame w u file rest st Hu Hsize Htype)
      as (Hres & Hsub & Herr & Htoasts & Hupd & Hon & Hclose).
    repeat split; auto.
Qed.

(** ** The submit handler *)

Lemma valid_submission_frame w u st :
  missingUser (Some u) = false ->
  profileFormSchema isUrl (formValues st) = [] ->
  let o := run w (formOnSubmit isUrl isoString (Some u) st) st in
  result o = Fulfilled tt
  /\ uploadingImage (final o) = uploadingImage st
  /\ profileImage (final o) = profileImage st
  /\ formErrors (final o) = []
  /\ length (toasts (log o)) = 1.
Proof.
  intros Hu Hvalid o. subst o.
  rewrite run_formOnSubmit_valid by exact Hvalid.
  pose proof (valid_birthdate _ _ Hvalid) as Hdate.
  unfold onSubmit.
  rewrite (missingUser_some u Hu).
  destruct (ProfileFormValues.birthdate (formValues st)) as [[|ms]|];
    [contradiction| |];
    cbn;
    match goal with
    | |- context [settle w _ ?c] => destruct (settle w _ c) as [[updated|]|e]
    end;
    cbn;
    rewrite ?runTasks_uploadingImage, ?runTasks_profileImage,
      ?runTasks_formErrors;
    now repeat split.
Qed.

(** X4: the submit handler of the form never rejects, sends no upload
    request, calls the controller at most once and never calls [onClose]; it
    leaves the uploading flag, the pending image and the entered values
    alone and the submitting flag down if it was down.  Afterwards the field
    errors are the issues of the schema, and it has shown one toast if there
    were none and no toast otherwise. *)
Theorem submit_handler_frame :
  forall (user : option User.t) (w : World) (st : State),
    let o := run w (formOnSubmit isUrl isoString user st) st in
    result o = Fulfilled tt
    /\ fetches (log o) = []
    /\ length (updates (log o)) <= 1
    /\ onCloses (log o) = []
    /\ uploadingImage (final o) = uploadingImage st
    /\ profileImage (final o) = profileImage st
    /\ formValues (final o) = formValues st
    /\ (isSubmitting st = false -> isSubmitting (final o) = false)
    /\ formErrors (final o) = profileFormSchema isUrl (formValues st)
    /\ length (toasts (log o))
       = match profileFormSchema isUrl (formValues st) with
         | [] => 1
         | _ => 0
         end.
Proof.
  intros user w st o. subst o.
  destruct (profileFormSchema isUrl (formValues st)) as [|issue issues] eqn:Hschema.
  - destruct (missingUser user) eqn:Hu.
    + rewrite run_formOnSubmit_valid, onSubmit_missingUser by assumption.
      cbn. repeat split; auto.
    + destruct user as [u|]; [|discriminate].
      destruct (valid_submission isUrl isoString w u st Hu Hschema)
        as (Hsent & Hfetch & Hclose & Hvalues & Hsub & _).
      destruct (valid_submission_frame w u st Hu Hschema)
        as (Hres & Hup & Himage & Herr & Htoasts).
      rewrite Hsent. repeat split; auto.
  - assert (profileFormSchema isUrl (formValues st) <> []) as Hinvalid
        by (rewrite Hschema; discriminate).
    rewrite run_formOnSubmit_invalid by exact Hinvalid.
    rewrite Hschema. cbn. repeat split; auto.
Qed.

(** X5: [onSubmit] called with an invalid date (which the form never passes
    on) does not reach the controller: [toISOString] throws inside the try
    block, the generic error toast is shown, the handler ends without an
    exception and the submitting flag is down. *)
Theorem onSubmit_invalid_date_is_caught :
  forall (u : User.t) (preview : option string) (data : ProfileFormValues.t)
         (w : World) (st : State),
    missingUser (Some u) = false ->
    ProfileFormValues.birthdate data = Some InvalidDate ->
    let o := run w (onSubmit isoString (Some u) preview data) st in
    result o = Fulfilled tt
    /\ updates (log o) = []
    /\ onUpdates (log o) = []
    /\ toasts (log o) = [updateFailedToast]
    /\ isSubmitting (final o) = false.
Proof.
  intros u preview data w st Hu Hdate o. subst o.
  unfold onSubmit. rewrite (missingUser_some u Hu), Hdate.
  cbn. repeat split.
Qed.

(** ** Controls while a handler waits *)

Lemma taskStates_isSubmitting ts st s :
  In s (taskStates ts st) -> isSubmitting s = isSubmitting st.
Proof.
  revert st. induction ts as [|t ts IH]; intros st [Hs|Hs].
  - now subst s.
  - contradiction.
  - now subst s.
  - rewrite (IH _ Hs). now destruct t.
Qed.

Lemma submission_in_flight_is_submitting user w st s :
  In s (suspensions w (formOnSubmit isUrl isoString user st) st) ->
  isSubmitting s = true.
Proof.
  unfold formOnSubmit, handleSubmit.
  destruct (profileFormSchema isUrl (formValues st)); [|contradiction].
  destruct user as [u|]; [|contradiction].
  unfold onSubmit.
  destruct (User.id u =? ""); [contradiction|].
  destruct (ProfileFormValues.birthdate (formValues st)) as [[|ms]|];
    cbn; try contradiction;
    intros Hs; apply in_app_or in Hs; destruct Hs as [Hs|Hs];
    try (now rewrite (taskStates_isSubmitting _ _ _ Hs));
    revert Hs;
    match goal with
    | |- context [settle w _ ?c] => destruct (settle w _ c) as [[updated|]|e]
    end; cbn; contradiction.
Qed.

(** X6: in every state in which a submission waits for the controller the
    submitting flag is up and a click on Save starts nothing; in every state
    in which an upload waits, choosing a file and a click on Remove start
    nothing. *)
Theorem controls_inert_while_waiting :
  forall (user : option User.t) (w : World) (st s : State),
    (In s (suspensions w (formOnSubmit isUrl isoString user st) st) ->
     isSubmitting s = true
     /\ dispatch isUrl isoString user s ClickSave = None)
    /\
    (forall files chosen,
        In s (suspensions w (handleImageChange user files) st) ->
        dispatch isUrl isoString user s (ChooseFiles chosen) = None
        /\ dispatch isUrl isoString user s ClickRemove = None).
Proof.
  intros user w st s. split.
  - intros Hs. pose proof (submission_in_flight_is_submitting _ _ _ _ Hs) as Hsub.
    split; [exact Hsub|].
    unfold dispatch, submitDisabled. rewrite Hsub. now destruct user.
  - intros files chosen Hs.
    pose proof (upload_in_flight_is_pending _ _ _ _ _ Hs) as Hup.
    destruct user as [u|]; [|now split].
    unfold dispatch, fileInputDisabled. rewrite Hup. simpl.
    rewrite andb_false_r. now split.
Qed.

(** ** The Remove button *)

Lemma removeShown_persisted u st :
  profileImagePreview st = persistedImage u -> removeShown u st = false.
Proof.
  unfold removeShown, persistedImage, or_null, or_else, truthy.
  intros ->. destruct (pfpOf u) as [q|]; [|reflexivity].
  destruct (q =? "") eqn:Hq; simpl; [reflexivity|].
  now rewrite Hq, String.eqb_refl.
Qed.

(** X7: the Remove button is hidden whenever the preview is the persisted
    image, as it is when the dialog opens.  When it is shown and no upload is
    in flight, a click on it sets the preview to the persisted image and
    clears the pending image, with no toast and no request, and hides the
    button: a second click starts nothing. *)
Theorem remove_restores_persisted_image :
  forall (u : User.t) (st : State),
    (profileImagePreview st = persistedImage u -> removeShown u st = false)
    /\ removeShown u (mount newDate (Some u)) = false
    /\ (removeShown u st = true ->
        uploadingImage st = false ->
        exists p : Prog unit,
          dispatch isUrl isoString (Some u) st ClickRemove = Some p
          /\ forall w : World,
              let o := run w p st in
              profileImagePreview (final o) = persistedImage u
              /\ profileImage (final o) = None
              /\ toasts (log o) = []
              /\ fetches (log o) = []
              /\ updates (log o) = []
              /\ removeShown u (final o) = false
              /\ dispatch isUrl isoString (Some u) (final o) ClickRemove = None).
Proof.
  intros u st. split; [apply removeShown_persisted|].
  split; [now apply removeShown_persisted|].
  intros Hshown Hup.
  exists (act (SetProfileImage None) ;;
          act (SetProfileImagePreview (persistedImage u))).
  split.
  - unfold dispatch. now rewrite Hshown, Hup.
  - intros w o. subst o. cbn.
    assert (removeShown u
              (exec (SetProfileImagePreview (persistedImage u))
                    (exec (SetProfileImage None) st)) = false) as Hhidden
        by now apply removeShown_persisted.
    cbn in Hhidden. unfold dispatch. cbn. rewrite Hhidden.
    now repeat split.
Qed.

(** ** An upload followed by a submission *)


(** ** The schema *)

Lemma bioIssues_nil v :
  bioIssues v = [] <->
  match v with
  | Some s => (String.length s <= 160)%nat
  | None => True
  end.
Proof.
  unfold bioIssues. destruct v as [s|]; [|tauto].
  destruct (Nat.ltb_spec 160 (String.length s)); split; intros;
    try discriminate; try lia; reflexivity.
Qed.

(** X9: the bio check reports no issue exactly when the bio is absent or
    has at most 160 characters; a longer bio gets the bio message, and a
    form that holds it is not submitted. *)
Theorem bio_accepted_iff_at_most_160 :
  forall s : string,
    bioIssues None = []
    /\ (bioIssues (Some s) = [] <-> (String.length s <= 160)%nat)
    /\ ((160 < String.length s)%nat ->
        bioIssues (Some s)
        = [("bio", "Bio must not be longer than 160 characters.")]
        /\ forall user st w,
            ProfileFormValues.bio (formValues st) = Some s ->
            let o := run w (formOnSubmit isUrl isoString user st) st in
            updates (log o) = []
            /\ onUpdates (log o) = []
            /\ In ("bio", "Bio must not be longer than 160 characters.")
                  (formErrors (final o))).
Proof.
  intros s. split; [reflexivity|]. split; [apply (bioIssues_nil (Some s))|].
  intros Hlong.
  assert (bioIssues (Some s)
          = [("bio", "Bio must not be longer than 160 characters.")]) as Hbio.
  { unfold bioIssues.
    destruct (Nat.ltb_spec 160 (String.length s)); [reflexivity|lia]. }
  split; [exact Hbio|].
  intros user st w Hform o. subst o.
  assert (In ("bio", "Bio must not be longer than 160 characters.")
             (profileFormSchema isUrl (formValues st))) as Hin.
  { unfold profileFormSchema. rewrite Hform, Hbio.
    apply in_or_app. right. apply in_or_app. left. now left. }
  assert (profileFormSchema isUrl (formValues st) <> []) as Hinvalid.
  { intros Hnil. rewrite Hnil in Hin. contradiction. }
  destruct (blocked_submission isUrl isoString w user st Hinvalid)
    as (Hupd & Hon & _ & Herr & _).
  repeat split; try assumption. now rewrite Herr.
Qed.

(** X10: the schema accepts form values exactly when the username has 3 to
    30 characters, the bio at most 160, the website is absent, empty or
    accepted by the URL check, and the birthdate is not the invalid date;
    first name, last name, location and about play no part. *)
Theorem schema_accepts_iff_fields_valid :
  forall values : ProfileFormValues.t,
    profileFormSchema isUrl values = [] <->
    (3 <= String.length (ProfileFormValues.username values) <= 30)%nat
    /\ match ProfileFormValues.bio values with
       | Some s => (String.length s <= 160)%nat
       | None => True
       end
    /\ match ProfileFormValues.website values with
       | Some s => s = "" \/ isUrl s = true
       | None => True
       end
    /\ ProfileFormValues.birthdate values <> Some InvalidDate.
Proof.
  intros values. unfold profileFormSchema.
  rewrite <- usernameIssues_nil, <- bioIssues_nil, <- (websiteIssues_nil isUrl).
  assert (birthdateIssues (ProfileFormValues.birthdate values) = [] <->
          ProfileFormValues.birthdate values <> Some InvalidDate) as Hdate.
  { destruct (ProfileFormValues.birthdate values) as [[|ms]|]; simpl;
      split; intros; try discriminate; try reflexivity; congruence. }
  rewrite <- Hdate. split.
  - intros H.
    apply app_eq_nil in H. destruct H as [H1 H].
    apply app_eq_nil in H. destruct H as [H2 H].
    apply app_eq_nil in H. destruct H as [H3 H4]. auto.
  - intros (H1 & H2 & H3 & H4). now rewrite H1, H2, H3, H4.
Qed.

(** X11: the schema reports at most one issue per field, in the order
    username, bio, website, birthdate. *)
Theorem one_issue_per_field :
  forall values : ProfileFormValues.t,
    NoDup (map fst (profileFormSchema isUrl values))
    /\ exists keep : list bool,
        map fst (profileFormSchema isUrl values)
        = map snd (filter fst (combine keep
                                       ["username"; "bio"; "website"; "birthdate"])).
Proof.
  intros values. unfold profileFormSchema, usernameIssues, bioIssues,
    websiteIssues, birthdateIssues.
  destruct (Nat.ltb_spec (String.length (ProfileFormValues.username values)) 3);
    destruct (Nat.ltb_spec 30 (String.length (ProfileFormValues.username values)));
    try lia;
    destruct (ProfileFormValues.bio values) as [b|];
    try destruct (160 <? String.length b)%nat;
    destruct (urlOption isUrl (ProfileFormValues.website values)
              || emptyLiteral (ProfileFormValues.website values));
    destruct (ProfileFormValues.birthdate values) as [[|ms]|];
    cbn;
    (split;
     [ repeat (constructor; [cbn; intuition discriminate|]); constructor
     | ]).
  all: first
    [ now exists [true; true; true; true]
    | now exists [true; true; true; false]
    | now exists [true; true; false; true]
    | now exists [true; true; false; false]
    | now exists [true; false; true; true]
    | now exists [true; false; true; false]
    | now exists [true; false; false; true]
    | now exists [true; false; false; false]
    | now exists [false; true; true; true]
    | now exists [false; true; true; false]
    | now exists [false; true; false; true]
    | now exists [false; true; false; false]
    | now exists [false; false; true; true]
    | now exists [false; false; true; false]
    | now exists [false; false; false; true]
    | now exists [false; false; false; false] ].
Qed.

(** ** Opening the dialog *)

Lemma or_default_stored a :
  or_default (Some (or_default a "")) "" = or_default a "".
Proof.
  unfold or_default, or_else, truthy.
  destruct a as [s|]; [|reflexivity].
  destruct (s =? "") eqn:Hs; simpl; [reflexivity|now rewrite Hs].
Qed.

Lemma or_null_stored a : or_null (Some (or_default a "")) = or_null a.
Proof.
  unfold or_null, or_default, or_else, truthy.
  destruct a as [s|]; [|reflexivity].
  destruct (s =? "") eqn:Hs; simpl; [reflexivity|now rewrite Hs].
Qed.

(** X12: saving the dialog as it opened, when its values pass validation,
    sends the stored profile back: the username, the names, location and
    about (empty when absent), bio and website (null when absent or empty),
    the stored birthdate read as a date and written as a timestamp string,
    and the persisted image as the picture. *)
Theorem untouched_form_sends_stored_profile :
  forall (u : User.t) (w : World),
    missingUser (Some u) = false ->
    profileFormSchema isUrl (formValues (mount newDate (Some u))) = [] ->
    updates (log (run w (formOnSubmit isUrl isoString (Some u)
                                      (mount newDate (Some u)))
                      (mount newDate (Some u))))
    = [(User.id u,
        {| ProfileData.username := User.username u;
           ProfileData.firstName := or_default (User.firstName u) "";
           ProfileData.lastName := or_default (User.lastName u) "";
           ProfileData.location := or_default (User.location u) "";
           ProfileData.about := or_default (User.about u) "";
           ProfileData.profile :=
             {| ProfilePatch.bio := or_null (profileField Profile.bio u);
                ProfilePatch.website := or_null (profileField Profile.website u);
                ProfilePatch.birthdate :=
                  match profileField Profile.birthdate u with
                  | Some s =>
                      if s =? "" then None
                      else match newDate s with
                           | TimeValue ms => Some (isoString ms)
                           | InvalidDate => None
                           end
                  | None => None
                  end;
                ProfilePatch.pfp := persistedImage u |} |})].
Proof.
  intros u w Hu Hvalid.
  destruct (valid_submission isUrl isoString w u _ Hu Hvalid) as (Hsent & _).
  rewrite Hsent. unfold expectedPayload. cbn.
  rewrite !or_default_stored, !or_null_stored.
  do 3 f_equal. f_equal.
  destruct (profileField Profile.birthdate u) as [s|]; [|reflexivity].
  destruct (s =? ""); [reflexivity|].
  now destruct (newDate s).
Qed.


(** ** The date picker *)

(** X14: the date picker disables exactly the dates after now and the dates
    before 1 January 1900.  Validation and submission do not look at the
    range: every valid date in the form passes the schema and is sent as its
    timestamp string. *)
Theorem date_picker_range_is_not_validated :
  forall (now start d : Z),
    newDate "1900-01-01" = TimeValue start ->
    (birthdateDisabled newDate now (TimeValue d) = true
     <-> (now < d \/ d < start)%Z)
    /\ birthdateIssues (Some (TimeValue d)) = []
    /\ forall (u : User.t) (w : World) (st : State),
        missingUser (Some u) = false ->
        profileFormSchema isUrl (formValues st) = [] ->
        ProfileFormValues.birthdate (formValues st) = Some (TimeValue d) ->
        exists data : ProfileData.t,
          updates (log (run w (formOnSubmit isUrl isoString (Some u) st) st))
          = [(User.id u, data)]
          /\ ProfilePatch.birthdate (ProfileData.profile data)
             = Some (isoString d).
Proof.
  intros now start d Hstart. split; [|split; [reflexivity|]].
  - unfold birthdateDisabled, dateLt. rewrite Hstart.
    rewrite orb_true_iff, !Z.ltb_lt. tauto.
  - intros u w st Hu Hvalid Hdate.
    destruct (valid_submission isUrl isoString w u st Hu Hvalid) as (Hsent & _).
    eexists. split; [exact Hsent|]. cbn. now rewrite Hdate.
Qed.

(** ** The event loop *)

Lemma neutral_exec a st :
  neutral a ->
  isSubmitting (exec a st) = isSubmitting st
  /\ uploadingImage (exec a st) = uploadingImage st
  /\ (imageOk st -> imageOk (exec a st)).
Proof.
  destruct a as [b|b|[f|]|v|issues|t|label e|f|u'|]; simpl;
    intros Hneutral; try contradiction; repeat split; auto.
Qed.

(** What the synchronous part of the rest of a handler does. *)
Lemma lowers_sync kind flag p st :
  lowering kind = Some flag ->
  Lowers flag p ->
  (imageOk st -> imageOk (sync p st))
  /\ ((waiting (remainder p) = true
       /\ Lowers flag (remainder p)
       /\ isSubmitting (sync p st) = isSubmitting st
       /\ uploadingImage (sync p st) = uploadingImage st)
      \/ (remainder p = Ret tt
          /\ isSubmitting (sync p st)
             = (if sameKind kind Submission then false else isSubmitting st)
          /\ uploadingImage (sync p st)
             = (if sameKind kind Upload then false else uploadingImage st))).
Proof.
  intros Hkind. revert st.
  induction p as [a|e|a k IH|R c k IH]; intros st Hlow; simpl in Hlow.
  - contradiction.
  - contradiction.
  - destruct Hlow as [[Ha Hk]|[Hneutral Hlow]].
    + subst a k. simpl. split.
      * destruct kind; inversion Hkind; subst flag; auto.
      * right. destruct kind; inversion Hkind; subst flag; auto.
    + destruct (neutral_exec a st Hneutral) as (Hsub & Hup & Himg).
      destruct (IH (exec a st) Hlow) as (Himg' & Hcases).
      simpl. split; [auto|].
      rewrite Hsub, Hup in Hcases. exact Hcases.
  - simpl. split; [auto|]. left. auto.
Qed.

(** How the image handler starts. *)
Lemma handleImageChange_start user files st :
  let p := handleImageChange user files in
  (remainder p = Ret tt
   /\ isSubmitting (sync p st) = isSubmitting st
   /\ uploadingImage (sync p st) = uploadingImage st
   /\ profileImage (sync p st) = profileImage st)
  \/ (waiting (remainder p) = true
      /\ Lowers (SetUploadingImage false) (remainder p)
      /\ isSubmitting (sync p st) = isSubmitting st
      /\ uploadingImage (sync p st) = true
      /\ imageOk (sync p st)).
Proof.
  intros p. subst p.
  destruct (image_paths user files)
    as [[Hf|Hf]|file rest Hf Hu|u file rest Hf Hus Hu Hsize
        |u file rest Hf Hus Hu Hsize Htype|u file rest Hf Hus Hu Hsize Htype];
    subst.
  - left. now repeat split.
  - left. now repeat split.
  - left. rewrite handleImageChange_missingUser by exact Hu. now repeat split.
  - left. rewrite handleImageChange_tooLarge by assumption. now repeat split.
  - left. rewrite handleImageChange_notImage by assumption. now repeat split.
  - right. unfold handleImageChange.
    rewrite (missingUser_some u Hu), Hsize, Htype. cbn.
    split; [reflexivity|]. split.
    + intros [response|e]; cbn; [|tauto].
      destruct (Response.ok response); cbn; [|tauto].
      intros [[|url data]|e]; cbn; try tauto.
      destruct (truthy (or_else url (match data with Some d => d | None => None end)));
        cbn; tauto.
    + split; [reflexivity|]. split; [reflexivity|].
      unfold imageOk, acceptable. cbn. split; [now apply gtb_false_le|exact Htype].
Qed.

(** How the submit handler of the form starts. *)
Lemma formOnSubmit_start user st :
  let p := formOnSubmit isUrl isoString user st in
  uploadingImage (sync p st) = uploadingImage st
  /\ profileImage (sync p st) = profileImage st
  /\ ((remainder p = Ret tt
       /\ (isSubmitting st = false -> isSubmitting (sync p st) = false))
      \/ (waiting (remainder p) = true
          /\ Lowers (SetIsSubmitting false) (remainder p)
          /\ isSubmitting (sync p st) = true)).
Proof.
  intros p. subst p. unfold formOnSubmit, handleSubmit.
  destruct (profileFormSchema isUrl (formValues st)) as [|issue issues];
    [|cbn; split; [reflexivity|]; split; [reflexivity|]; left; now split].
  destruct (missingUser user) eqn:Hu.
  { rewrite onSubmit_missingUser by exact Hu. cbn.
    split; [reflexivity|]. split; [reflexivity|]. left. now split. }
  destruct user as [u|]; [|discriminate].
  unfold onSubmit. rewrite (missingUser_some u Hu).
  destruct (ProfileFormValues.birthdate (formValues st)) as [[|ms]|]; cbn;
    (split; [reflexivity|]); (split; [reflexivity|]).
  - left. now split.
  - right. split; [reflexivity|]. split; [|reflexivity].
    intros [[updated|]|e]; cbn; tauto.
  - right. split; [reflexivity|]. split; [|reflexivity].
    intros [[updated|]|e]; cbn; tauto.
Qed.

Lemma inFlight_app kind l1 l2 :
  inFlight kind (l1 ++ l2) = inFlight kind l1 + inFlight kind l2.
Proof.
  induction l1 as [|e l1 IH]; simpl; [reflexivity|]. rewrite IH. lia.
Qed.

Lemma counts_le_1 kind e : counts kind e <= 1.
Proof. unfold counts. destruct (sameKind (fst e) kind && waiting (snd e)); lia. Qed.

(** One task keeps the machine consistent. *)
Lemma step_consistent user m l m' :
  step isUrl isoString user m l m' -> Consistent m -> Consistent m'.
Proof.
  intros Hstep [Hentries Huploads Hsubs Himage].
  destruct Hstep as [m ev p Hdispatch|m values errors|m n result Hreading
                    |st before after kind R c k r n]; simpl in *.
  - (* the viewer acts *)
    unfold dispatch in Hdispatch.
    destruct user as [u|]; [|discriminate].
    destruct ev as [|files| |]; simpl.
    + (* Save *)
      destruct (submitDisabled (current m)) eqn:Hdisabled; [discriminate|].
      inversion Hdispatch; subst p; clear Hdispatch.
      unfold submitDisabled in Hdisabled.
      apply orb_false_elim in Hdisabled. destruct Hdisabled as [Hsub Hup].
      destruct (formOnSubmit_start (Some u) (current m))
        as (Hup' & Himg' & [[Hrem Hflag]|(Hwait & Hlow & Hflag)]).
      * constructor; simpl.
        -- apply Forall_app. split; [exact Hentries|].
           constructor; [|constructor]. left. exact Hrem.
        -- rewrite inFlight_app, Hup', Huploads. simpl. lia.
        -- rewrite inFlight_app, (Hflag Hsub), Hsubs, Hsub. simpl.
           unfold counts. simpl. rewrite Hrem. reflexivity.
        -- unfold imageOk in *. now rewrite Himg'.
      * constructor; simpl.
        -- apply Forall_app. split; [exact Hentries|].
           constructor; [|constructor]. right. split; [exact Hwait|].
           exists (SetIsSubmitting false). now split.
        -- rewrite inFlight_app, Hup', Huploads. simpl. lia.
        -- rewrite inFlight_app, Hflag, Hsubs, Hsub. simpl.
           unfold counts. simpl. rewrite Hwait. reflexivity.
        -- unfold imageOk in *. now rewrite Himg'.
    + (* a file is chosen *)
      destruct (fileInputDisabled (current m)) eqn:Hdisabled; [discriminate|].
      inversion Hdispatch; subst p; clear Hdispatch.
      unfold fileInputDisabled in Hdisabled.
      destruct (handleImageChange_start (Some u) files (current m))
        as [(Hrem & Hsub' & Hup' & Himg')|(Hwait & Hlow & Hsub' & Hup' & Himg')].
      * constructor; simpl.
        -- apply Forall_app. split; [exact Hentries|].
           constructor; [|constructor]. left. exact Hrem.
        -- rewrite inFlight_app, Hup', Huploads. simpl.
           unfold counts. simpl. rewrite Hrem. simpl. lia.
        -- rewrite inFlight_app, Hsub', Hsubs. simpl. lia.
        -- unfold imageOk in *. now rewrite Himg'.
      * constructor; simpl.
        -- apply Forall_app. split; [exact Hentries|].
           constructor; [|constructor]. right. split; [exact Hwait|].
           exists (SetUploadingImage false). now split.
        -- rewrite inFlight_app, Hup', Huploads, Hdisabled. simpl.
           unfold counts. simpl. rewrite Hwait. reflexivity.
        -- rewrite inFlight_app, Hsub', Hsubs. simpl. lia.
        -- exact Himg'.
    + (* Remove *)
      destruct (removeShown u (current m) && negb (uploadingImage (current m)));
        [|discriminate].
      inversion Hdispatch; subst p; clear Hdispatch.
      constructor; simpl.
      * apply Forall_app. split; [exact Hentries|].
        constructor; [|constructor]. now left.
      * rewrite inFlight_app, Huploads. simpl. lia.
      * rewrite inFlight_app, Hsubs. simpl. lia.
      * exact I.
    + (* Cancel *)
      inversion Hdispatch; subst p; clear Hdispatch.
      constructor; simpl.
      * apply Forall_app. split; [exact Hentries|].
        constructor; [|constructor]. now left.
      * rewrite inFlight_app, Huploads. simpl. lia.
      * rewrite inFlight_app, Hsubs. simpl. lia.
      * exact Himage.
  - (* the viewer types *)
    constructor; simpl; assumption.
  - (* a file reader ends *)
    constructor; simpl; assumption.
  - (* a call settles *)
    apply Forall_app in Hentries. destruct Hentries as [Hbefore Hrest].
    inversion Hrest as [|e l [Hdone|(_ & flag & Hkind & Hlow)] Hafter]; subst;
      [discriminate|].
    simpl in Hkind, Hlow.
    rewrite inFlight_app in Huploads, Hsubs. simpl in Huploads, Hsubs.
    destruct (lowers_sync kind flag (k r) st Hkind (Hlow r))
      as (Himg' & [(Hwait & Hlow' & Hsub' & Hup')|(Hrem & Hsub' & Hup')]).
    + constructor; simpl.
      * apply Forall_app. split; [exact Hbefore|].
        constructor; [|exact Hafter]. right. split; [exact Hwait|].
        exists flag. now split.
      * rewrite inFlight_app, Hup'. simpl. rewrite <- Huploads.
        unfold counts. simpl. rewrite Hwait. reflexivity.
      * rewrite inFlight_app, Hsub'. simpl. rewrite <- Hsubs.
        unfold counts. simpl. rewrite Hwait. reflexivity.
      * auto.
    + pose proof (counts_le_1 Upload (kind, remainder (k r))) as Hc.
      constructor; simpl.
      * apply Forall_app. split; [exact Hbefore|].
        constructor; [|exact Hafter]. now left.
      * rewrite inFlight_app, Hup'. simpl.
        unfold counts in *. simpl in *. rewrite Hrem. simpl.
        rewrite andb_false_r. simpl.
        destruct kind; simpl in *; try discriminate;
          destruct (uploadingImage st); lia.
      * rewrite inFlight_app, Hsub'. simpl.
        unfold counts in *. simpl in *. rewrite Hrem. simpl.
        rewrite andb_false_r. simpl.
        destruct kind; simpl in *; try discriminate;
          destruct (isSubmitting st); lia.
      * auto.
Qed.

Lemma session_consistent user ls m :
  session isUrl isoString newDate user ls m -> Consistent m.
Proof.
  induction 1 as [|ls m l m' _ IH Hstep].
  - constructor; simpl; auto.
    unfold imageOk. simpl. exact I.
  - exact (step_consistent _ _ _ _ Hstep IH).
Qed.

(** X15: in every session of the dialog, whatever the viewer does and
    however the calls settle, the uploading flag is up exactly while one
    upload waits and the submitting flag exactly while one submission waits:
    at most one of each is ever in flight.  No handler ends with an
    exception, and when nothing waits the Save button is enabled. *)
Theorem flags_mirror_handlers_in_flight :
  forall (user : option User.t) (labels : list Label) (m : Machine),
    session isUrl isoString newDate user labels m ->
    inFlight Upload (pending m) = (if uploadingImage (current m) then 1 else 0)
    /\ inFlight Submission (pending m)
       = (if isSubmitting (current m) then 1 else 0)
    /\ (forall kind p, In (kind, p) (pending m) -> p = Ret tt \/ waiting p = true)
    /\ (inFlight Upload (pending m) = 0 ->
        inFlight Submission (pending m) = 0 ->
        submitDisabled (current m) = false).
Proof.
  intros user labels m Hsession.
  destruct (session_consistent user labels m Hsession)
    as [Hentries Huploads Hsubs _].
  split; [exact Huploads|]. split; [exact Hsubs|]. split.
  - intros kind p Hin.
    rewrite Forall_forall in Hentries.
    destruct (Hentries _ Hin) as [Hdone|[Hwait _]]; auto.
  - intros Hno_upload Hno_submission. unfold submitDisabled.
    rewrite Hno_upload in Huploads. rewrite Hno_submission in Hsubs.
    destruct (uploadingImage (current m)); [discriminate|].
    destruct (isSubmitting (current m)); [discriminate|]. reflexivity.
Qed.

(** X16: in every session of the dialog the pending image, when there is
    one, is a file that passed the size and the type check. *)
Theorem pending_image_was_accepted :
  forall (user : option User.t) (labels : list Label) (m : Machine)
         (file : File.t),
    session isUrl isoString newDate user labels m ->
    profileImage (current m) = Some file ->
    (File.size file <= 5 * 1024 * 1024)%Z
    /\ startsWith (File.type file) "image/" = true.
Proof.
  intros user labels m file Hsession Himage.
  destruct (session_consistent user labels m Hsession) as [_ _ _ Hok].
  unfold imageOk in Hok. rewrite Himage in Hok. exact Hok.
Qed.

(** The upload of an accepted file, up to the reply to its request. *)
Lemma accepted_file_waits u file rest :
  missingUser (Some u) = false ->
  acceptable file ->
  exists k : Settled Response.t -> Prog unit,
    remainder (handleImageChange (Some u) (Some (file :: rest)))
    = Await (Fetch "/api/upload" (uploadInit u file)) k
    /\ readersStarted (handleImageChange (Some u) (Some (file :: rest))) = 1
    /\ (forall st,
           sync (handleImageChange (Some u) (Some (file :: rest))) st
           = exec (SetUploadingImage true) (exec (SetProfileImage (Some file)) st))
    /\ (forall e, remainder (k (Rejected e)) = Ret tt)
    /\ (forall e, readersStarted (k (Rejected e)) = 0)
    /\ (forall e st,
           sync (k (Rejected e)) st
           = exec (SetUploadingImage false)
                  (exec (SetProfileImage None)
                        (exec (SetProfileImagePreview (persistedImage u)) st))).
Proof.
  intros Hu [Hsize Htype].
  assert ((File.size file >? 5 * 1024 * 1024)%Z = false) as Hgtb.
  { rewrite Z.gtb_ltb. apply Z.ltb_ge. exact Hsize. }
  unfold handleImageChange.
  rewrite (missingUser_some u Hu), Hgtb, Htype. cbn.
  eexists. split; [reflexivity|]. now repeat split.
Qed.

Lemma session_reader user ls st pend n result :
  session isUrl isoString newDate user ls
          {| current := st; pending := pend; reading := S n |} ->
  session isUrl isoString newDate user (ls ++ [ReaderEnds result])
          {| current := runTask (ReaderLoadEnd result) st;
             pending := pend; reading := n |}.
Proof.
  intros H.
  exact (continued _ _ _ _ _ _ _ _ H
           (readerEnds isUrl isoString user
              {| current := st; pending := pend; reading := S n |}
              n result eq_refl)).
Qed.

Lemma session_settles user ls st before kind R (c : Call R) k (r : Settled R)
      after n :
  session isUrl isoString newDate user ls
          {| current := st;
             pending := before ++ (kind, Await c k) :: after;
             reading := n |} ->
  session isUrl isoString newDate user (ls ++ [Settles (length before) r])
          {| current := sync (k r) st;
             pending := before ++ (kind, remainder (k r)) :: after;
             reading := n + readersStarted (k r) |}.
Proof.
  intros H.
  exact (continued _ _ _ _ _ _ _ _ H
           (callSettles isUrl isoString user st before after kind R c k r n)).
Qed.

(** X17: the order in which the file reader and a rejected upload request
    call back decides the preview.  If the reader ends first the dialog
    comes to rest with the persisted image as preview; if the reader ends
    after the rejection has been handled it comes to rest with the reader's
    result as preview, although the pending image is cleared. *)
Theorem late_file_reader_overrides_reverted_preview :
  forall (u : User.t) (file : File.t) (rest : list File.t) (e : Exn)
         (local : option string),
    missingUser (Some u) = false ->
    acceptable file ->
    (exists m : Machine,
        session isUrl isoString newDate (Some u)
                [Acts (ChooseFiles (Some (file :: rest)));
                 ReaderEnds local;
                 Settles 0 (@Rejected Response.t e)] m
        /\ profileImagePreview (current m) = persistedImage u
        /\ profileImage (current m) = None
        /\ uploadingImage (current m) = false
        /\ inFlight Upload (pending m) = 0
        /\ reading m = 0)
    /\
    (exists m : Machine,
        session isUrl isoString newDate (Some u)
                [Acts (ChooseFiles (Some (file :: rest)));
                 Settles 0 (@Rejected Response.t e);
                 ReaderEnds local] m
        /\ profileImagePreview (current m) = local
        /\ profileImage (current m) = None
        /\ uploadingImage (current m) = false
        /\ inFlight Upload (pending m) = 0
        /\ reading m = 0).
Proof.
  intros u file rest e local Hu Hfile.
  destruct (accepted_file_waits u file rest Hu Hfile)
    as (k & Hrem & Hreaders & Hsync & Hend & Hnone & Hcatch).
  (* the file is chosen *)
  assert (session isUrl isoString newDate (Some u)
            [Acts (ChooseFiles (Some (file :: rest)))]
            {| current := exec (SetUploadingImage true)
                               (exec (SetProfileImage (Some file))
                                     (mount newDate (Some u)));
               pending := [(Upload,
                            Await (Fetch "/api/upload" (uploadInit u file)) k)];
               reading := 1 |}) as Hchosen.
  { pose proof (continued isUrl isoString newDate (Some u) [] _
                  (Acts (ChooseFiles (Some (file :: rest)))) _
                  (opened isUrl isoString newDate (Some u))
                  (viewerActs isUrl isoString (Some u)
                     {| current := mount newDate (Some u);
                        pending := []; reading := 0 |}
                     (ChooseFiles (Some (file :: rest)))
                     (handleImageChange (Some u) (Some (file :: rest)))
                     eq_refl)) as H.
    rewrite Hrem, Hreaders, Hsync in H. exact H. }
  split.
  - (* the reader ends, then the request is rejected *)
    pose proof (session_reader _ _ _ _ _ local Hchosen) as Hread.
    pose proof (session_settles _ _ _ [] Upload _
                  (Fetch "/api/upload" (uploadInit u file)) k
                  (Rejected e) [] _ Hread) as Hrejected.
    rewrite Hend, Hnone, Hcatch in Hrejected.
    eexists. split; [exact Hrejected|]. now repeat split.
  - (* the request is rejected, then the reader ends *)
    pose proof (session_settles _ _ _ [] Upload _
                  (Fetch "/api/upload" (uploadInit u file)) k
                  (Rejected e) [] _ Hchosen) as Hrejected.
    rewrite Hend, Hnone, Hcatch in Hrejected.
    pose proof (session_reader _ _ _ _ _ local Hrejected) as Hread.
    eexists. split; [exact Hread|]. now repeat split.
Qed.

Lemma submission_suspensions user w st s :
  In s (suspensions w (formOnSubmit isUrl isoString user st) st) ->
  uploadingImage s = uploadingImage st.
Proof.
  unfold formOnSubmit, handleSubmit.
  destruct (profileFormSchema isUrl (formValues st)); [|contradiction].
  destruct user as [u|]; [|contradiction].
  unfold onSubmit.
  destruct (User.id u =? ""); [contradiction|].
  destruct (ProfileFormValues.birthdate (formValues st)) as [[|ms]|];
    cbn; try contradiction;
    intros Hs; apply in_app_or in Hs; destruct Hs as [Hs|Hs];
    try (now rewrite (taskStates_uploadingImage _ _ _ Hs));
    revert Hs;
    match goal with
    | |- context [settle w _ ?c] => destruct (settle w _ c) as [[updated|]|e]
    end; cbn; contradiction.
Qed.

(** X18: while a submission waits for the controller the file input stays
    enabled unless an upload was already in flight: choosing a file then
    starts the image handler, so an upload and a submission can be in flight
    together. *)
Theorem upload_can_start_during_submission :
  forall (u : User.t) (w : World) (st s : State)
         (files : option (list File.t)),
    uploadingImage st = false ->
    In s (suspensions w (formOnSubmit isUrl isoString (Some u) st) st) ->
    isSubmitting s = true
    /\ dispatch isUrl isoString (Some u) s (ChooseFiles files)
       = Some (handleImageChange (Some u) files).
Proof.
  intros u w st s files Hup Hs.
  split; [exact (submission_in_flight_is_submitting _ _ _ _ Hs)|].
  unfold dispatch, fileInputDisabled.
  now rewrite (submission_suspensions _ _ _ _ Hs), Hup.
Qed.

End HandlerProperties.

(* ------------------------------------------------------------------ *)
(** * The further properties at the sample inputs *)

(** The date-only string of the date picker is the first day of 1900. *)
Example newDate_1900 :
  Scenario.newDate "1900-01-01"
  = TimeValue (Sample.dayNumber 1900 1 1 * 86400000)
  /\ Sample.isoString (-2208988800000) = "1900-01-01T00:00:00.000Z".
Proof. vm_compute. split; reflexivity. Qed.

(** The upload of [photo] by [alice] answered with a URL. *)
Lemma successful_upload_at_uploads :
  In ("/api/upload", uploadInit Sample.alice Sample.photo)
     (fetches (log (run (Sample.uploads "https://x/img.png")
                        (handleImageChange (Some Sample.alice)
                                           (Some [Sample.photo]))
                        Sample.editing)))
  /\ profileImagePreview
       (final (run (Sample.uploads "https://x/img.png")
                   (handleImageChange (Some Sample.alice) (Some [Sample.photo]))
                   Sample.editing))
     = Some "https://x/img.png".
Proof.
  assert (In ("/api/upload", uploadInit Sample.alice Sample.photo)
             (fetches (log (run (Sample.uploads "https://x/img.png")
                                (handleImageChange (Some Sample.alice)
                                                   (Some [Sample.photo]))
                                Sample.editing)))) as Hsent
      by (left; reflexivity).
  split; [exact Hsent|].
  exact (proj1 (successful_upload_shows_server_url
                  (Some Sample.alice) (Some [Sample.photo])
                  (Sample.uploads "https://x/img.png") Sample.editing
                  _ _ Sample.okResponse (Some "https://x/img.png") None
                  Hsent eq_refl eq_refl eq_refl eq_refl)).
Defined.

(** [onSubmit] called with the broken form. *)
Lemma invalid_date_at_broken :
  missingUser (Some Sample.alice) = false
  /\ ProfileFormValues.birthdate Scenario.broken = Some InvalidDate
  /\ toasts (log (run Sample.offline
                      (onSubmit Sample.isoString (Some Sample.alice) None
                                Scenario.broken)
                      Sample.editing))
     = [updateFailedToast].
Proof.
  split; [reflexivity|]. split; [reflexivity|].
  apply (onSubmit_invalid_date_is_caught
           Sample.isoString Sample.alice None Scenario.broken
           Sample.offline Sample.editing eq_refl eq_refl).
Defined.

(** Save while the submission of [entered] waits, and the file input while
    the upload of [photo] waits. *)
Lemma controls_inert_at_samples :
  In Scenario.submitting
     (suspensions Sample.offline
                  (formOnSubmit Sample.isUrl Sample.isoString
                                (Some Sample.alice) Sample.editing)
                  Sample.editing)
  /\ dispatch Sample.isUrl Sample.isoString (Some Sample.alice)
              Scenario.submitting ClickSave = None
  /\ In Sample.uploading
        (suspensions Sample.offline
                     (handleImageChange (Some Sample.alice) (Some [Sample.photo]))
                     Sample.editing)
  /\ dispatch Sample.isUrl Sample.isoString (Some Sample.alice)
              Sample.uploading (ChooseFiles (Some [Sample.photo])) = None.
Proof.
  assert (In Scenario.submitting
             (suspensions Sample.offline
                          (formOnSubmit Sample.isUrl Sample.isoString
                                        (Some Sample.alice) Sample.editing)
                          Sample.editing)) as Hsubmitting
      by (left; reflexivity).
  assert (In Sample.uploading
             (suspensions Sample.offline
                          (handleImageChange (Some Sample.alice)
                                             (Some [Sample.photo]))
                          Sample.editing)) as Huploading
      by (left; reflexivity).
  split; [exact Hsubmitting|]. split.
  - exact (proj2 (proj1 (controls_inert_while_waiting
                           Sample.isUrl Sample.isoString (Some Sample.alice)
                           Sample.offline Sample.editing Scenario.submitting)
                        Hsubmitting)).
  - split; [exact Huploading|].
    exact (proj1 (proj2 (controls_inert_while_waiting
                           Sample.isUrl Sample.isoString (Some Sample.alice)
                           Sample.offline Sample.editing Sample.uploading)
                        (Some [Sample.photo]) (Some [Sample.photo])
                        Huploading)).
Defined.

(** Remove after the first upload of [alice]. *)
Lemma remove_at_afterFirstUpload :
  removeShown Sample.alice Sample.afterFirstUpload = true
  /\ uploadingImage Sample.afterFirstUpload = false
  /\ exists p : Prog unit,
      dispatch Sample.isUrl Sample.isoString (Some Sample.alice)
               Sample.afterFirstUpload ClickRemove = Some p
      /\ profileImagePreview (final (run Sample.offline p Sample.afterFirstUpload))
         = Some "https://cdn/old.png".
Proof.
  split; [reflexivity|]. split; [reflexivity|].
  destruct (proj2 (proj2 (remove_restores_persisted_image
                            Sample.isUrl Sample.isoString Sample.newDate
                            Sample.alice Sample.afterFirstUpload))
                  eq_refl eq_refl) as (p & Hp & Hrun).
  exists p. split; [exact Hp|].
  exact (proj1 (Hrun Sample.offline)).
Defined.

Lemma photo_acceptable : acceptable Sample.photo.
Proof. split; [discriminate|reflexivity]. Defined.


(** A bio of 161 characters blocks the submission. *)
Lemma bio_at_longBio :
  (160 < String.length Scenario.longBio)%nat
  /\ bioIssues (Some Scenario.longBio)
     = [("bio", "Bio must not be longer than 160 characters.")]
  /\ updates (log (run Sample.offline
                       (formOnSubmit Sample.isUrl Sample.isoString
                                     (Some Sample.alice) Scenario.verbose)
                       Scenario.verbose))
     = [].
Proof.
  assert (160 < String.length Scenario.longBio)%nat as Hlong
      by (vm_compute; lia).
  destruct (proj2 (proj2 (bio_accepted_iff_at_most_160
                            Sample.isUrl Sample.isoString Scenario.longBio))
                  Hlong) as (Hbio & Hblocked).
  split; [exact Hlong|]. split; [exact Hbio|].
  exact (proj1 (Hblocked (Some Sample.alice) Scenario.verbose Sample.offline
                         eq_refl)).
Defined.

(** The schema accepts [entered]. *)
Lemma schema_at_entered :
  ((3 <= String.length (ProfileFormValues.username Sample.entered) <= 30)%nat
   /\ match ProfileFormValues.bio Sample.entered with
      | Some s => (String.length s <= 160)%nat
      | None => True
      end
   /\ match ProfileFormValues.website Sample.entered with
      | Some s => s = "" \/ Sample.isUrl s = true
      | None => True
      end
   /\ ProfileFormValues.birthdate Sample.entered <> Some InvalidDate)
  /\ profileFormSchema Sample.isUrl Sample.entered = [].
Proof.
  assert ((3 <= String.length (ProfileFormValues.username Sample.entered) <= 30)%nat
          /\ match ProfileFormValues.bio Sample.entered with
             | Some s => (String.length s <= 160)%nat
             | None => True
             end
          /\ match ProfileFormValues.website Sample.entered with
             | Some s => s = "" \/ Sample.isUrl s = true
             | None => True
             end
          /\ ProfileFormValues.birthdate Sample.entered <> Some InvalidDate)
    as Hfields.
  { simpl. repeat split; try lia; [now left|discriminate]. }
  split; [exact Hfields|].
  exact (proj2 (schema_accepts_iff_fields_valid Sample.isUrl Sample.entered)
               Hfields).
Defined.

(** [alice] saves the dialog as it opened. *)
Lemma untouched_form_at_alice :
  missingUser (Some Sample.alice) = false
  /\ profileFormSchema Sample.isUrl
       (formValues (mount Sample.newDate (Some Sample.alice))) = []
  /\ updates (log (run Sample.offline
                       (formOnSubmit Sample.isUrl Sample.isoString
                                     (Some Sample.alice)
                                     (mount Sample.newDate (Some Sample.alice)))
                       (mount Sample.newDate (Some Sample.alice))))
     = [("u1",
         {| ProfileData.username := "alice";
            ProfileData.firstName := "Alice";
            ProfileData.lastName := "";
            ProfileData.location := "";
            ProfileData.about := "";
            ProfileData.profile :=
              {| ProfilePatch.bio := Some "old bio";
                 ProfilePatch.website := None;
                 ProfilePatch.birthdate := Some "1990-05-17T00:00:00.000Z";
                 ProfilePatch.pfp := Some "https://cdn/old.png" |} |})].
Proof.
  split; [reflexivity|]. split; [vm_compute; reflexivity|].
  pose proof (untouched_form_sends_stored_profile
                Sample.isUrl Sample.isoString Sample.newDate Sample.alice
                Sample.offline eq_refl eq_refl) as H.
  vm_compute in H. vm_compute. exact H.
Defined.


(** One day after a given now is disabled by the picker, and sent all the
    same. *)
Lemma date_picker_at_tomorrow :
  Scenario.newDate "1900-01-01" = TimeValue (-2208988800000)
  /\ birthdateDisabled Scenario.newDate Sample.birthday
                       (TimeValue (Sample.birthday + 86400000)) = true
  /\ birthdateIssues (Some (TimeValue (Sample.birthday + 86400000))) = [].
Proof.
  destruct (date_picker_range_is_not_validated
              Sample.isUrl Sample.isoString Scenario.newDate
              Sample.birthday (-2208988800000) (Sample.birthday + 86400000)
              eq_refl) as (Hdisabled & Hissues & _).
  split; [reflexivity|]. split; [|exact Hissues].
  apply Hdisabled. left. unfold Sample.birthday. lia.
Defined.

(** The dialog of [alice] after she chose [photo]. *)
Lemma choosing_session :
  session Sample.isUrl Sample.isoString Scenario.newDate (Some Sample.alice)
          [Acts (ChooseFiles (Some [Sample.photo]))] Scenario.choosing.
Proof.
  exact (continued Sample.isUrl Sample.isoString Scenario.newDate
           (Some Sample.alice) [] _ _ _
           (opened Sample.isUrl Sample.isoString Scenario.newDate
                   (Some Sample.alice))
           (viewerActs Sample.isUrl Sample.isoString (Some Sample.alice)
              {| current := mount Scenario.newDate (Some Sample.alice);
                 pending := []; reading := 0 |}
              (ChooseFiles (Some [Sample.photo]))
              (handleImageChange (Some Sample.alice) (Some [Sample.photo]))
              eq_refl)).
Defined.

Lemma flags_at_choosing :
  session Sample.isUrl Sample.isoString Scenario.newDate (Some Sample.alice)
          [Acts (ChooseFiles (Some [Sample.photo]))] Scenario.choosing
  /\ uploadingImage (current Scenario.choosing) = true
  /\ inFlight Upload (pending Scenario.choosing) = 1
  /\ inFlight Submission (pending Scenario.choosing) = 0.
Proof.
  destruct (flags_mirror_handlers_in_flight
              Sample.isUrl Sample.isoString Scenario.newDate
              (Some Sample.alice) _ Scenario.choosing choosing_session)
    as (Huploads & Hsubs & _).
  split; [exact choosing_session|]. split; [reflexivity|].
  split; [exact Huploads|exact Hsubs].
Defined.

Lemma pending_image_at_choosing :
  session Sample.isUrl Sample.isoString Scenario.newDate (Some Sample.alice)
          [Acts (ChooseFiles (Some [Sample.photo]))] Scenario.choosing
  /\ profileImage (current Scenario.choosing) = Some Sample.photo
  /\ (File.size Sample.photo <= 5 * 1024 * 1024)%Z.
Proof.
  split; [exact choosing_session|]. split; [reflexivity|].
  exact (proj1 (pending_image_was_accepted
                  Sample.isUrl Sample.isoString Scenario.newDate
                  (Some Sample.alice) _ Scenario.choosing Sample.photo
                  choosing_session eq_refl)).
Defined.

(** The upload of [photo] by [alice] is rejected before the reader ends. *)
Lemma late_file_reader_at_alice :
  missingUser (Some Sample.alice) = false
  /\ acceptable Sample.photo
  /\ exists m : Machine,
      session Sample.isUrl Sample.isoString Scenario.newDate (Some Sample.alice)
              [Acts (ChooseFiles (Some [Sample.photo]));
               Settles 0 (@Rejected Response.t (TypeError "Failed to fetch"));
               ReaderEnds (Some "data:image/png;base64,AAAA")] m
      /\ profileImagePreview (current m) = Some "data:image/png;base64,AAAA"
      /\ profileImage (current m) = None.
Proof.
  split; [reflexivity|]. split; [exact photo_acceptable|].
  destruct (proj2 (late_file_reader_overrides_reverted_preview
                     Sample.isUrl Sample.isoString Scenario.newDate
                     Sample.alice Sample.photo []
                     (TypeError "Failed to fetch")
                     (Some "data:image/png;base64,AAAA")
                     eq_refl photo_acceptable))
    as (m & Hsession & Hpreview & Himage & _).
  exists m. split; [exact Hsession|]. split; [exact Hpreview|exact Himage].
Defined.

(** [alice] chooses a file while her submission waits. *)
Lemma upload_during_submission_at_alice :
  uploadingImage Sample.editing = false
  /\ In Scenario.submitting
        (suspensions Sample.offline
                     (formOnSubmit Sample.isUrl Sample.isoString
                                   (Some Sample.alice) Sample.editing)
                     Sample.editing)
  /\ dispatch Sample.isUrl Sample.isoString (Some Sample.alice)
              Scenario.submitting (ChooseFiles (Some [Sample.photo]))
     = Some (handleImageChange (Some Sample.alice) (Some [Sample.photo])).
Proof.
  assert (In Scenario.submitting
             (suspensions Sample.offline
                          (formOnSubmit Sample.isUrl Sample.isoString
                                        (Some Sample.alice) Sample.editing)
                          Sample.editing)) as Hs
      by (left; reflexivity).
  split; [reflexivity|]. split; [exact Hs|].
  exact (proj2 (upload_can_start_during_submission
                  Sample.isUrl Sample.isoString Sample.alice Sample.offline
                  Sample.editing Scenario.submitting (Some [Sample.photo])
                  eq_refl Hs)).
Defined.
